(** * kitty/accessibility.c: the accessibility bridge of the terminal

    A shallow embedding of [kitty/accessibility.c], the CPython extension
    code that exposes the terminal's text, cursor offset and visible range
    to the assistive-technology layer and routes dictated text back to the
    child process.

    Conventions of the embedding:
    - a C [long] is a 64-bit two's complement integer, carried as a [Z]
      together with the reduction [wrap_long]; a C [int] is 32 bits wide;
    - a [const char *] is the [string] of the bytes in front of its
      terminator; a Python [str] is carried as the [string] of its
      characters, and the ["s"] conversions between both are the identity
      on strings without an embedded NUL;
    - the CPython error indicator is part of the interpreter state: an API
      call that fails stores an exception there and hands back NULL
      ([None]), exactly as the C API does;
    - reference counts are not modelled. *)

From Stdlib Require Import ZArith Lia String Ascii List DecimalString.
From stdpp Require Import base option gmap strings.

Local Open Scope string_scope.
Local Open Scope Z_scope.

(** ** C strings and [strcmp] *)

Module CString.

Definition NUL : ascii := "000"%char.

(** The value of a byte read through [unsigned char]. *)
Definition uchar (c : ascii) : Z := Z.of_N (N_of_ascii c).

(** [cstring s]: [s] has no embedded NUL, so it is the content of a C
    string. *)
Fixpoint cstring (s : string) : bool :=
  match s with
  | EmptyString => true
  | String c r => negb (Ascii.eqb c NUL) && cstring r
  end.

(** [strcmp] walks both strings byte by byte and stops at the first
    difference or at the terminator; the end of a [string] is where the
    terminating NUL byte is read. *)
Fixpoint strcmp (s1 s2 : string) : Z :=
  match s1, s2 with
  | EmptyString, EmptyString => 0
  | EmptyString, String c2 _ => 0 - uchar c2
  | String c1 _, EmptyString => uchar c1 - 0
  | String c1 r1, String c2 r2 =>
      if Ascii.eqb c1 c2
      then (if Ascii.eqb c1 NUL then 0 else strcmp r1 r2)
      else uchar c1 - uchar c2
  end.

(** The control strings returned by [process_voice_command]. *)
Definition LF : string := String "010" EmptyString.
Definition HT : string := String "009" EmptyString.
Definition ESC : string := String "027" EmptyString.
Definition SPC : string := String "032" EmptyString.
Definition DEL : string := String "127" EmptyString.
Definition CR : string := String "013" EmptyString.

End CString.

Import CString.

(** ** [process_voice_command] (accessibility.c, lines 213-226) *)

Definition process_voice_command (text : string) : string :=
  if (strcmp text "new line" =? 0) || (strcmp text "newline" =? 0) then LF
  else if strcmp text "tab" =? 0 then HT
  else if strcmp text "escape" =? 0 then ESC
  else if strcmp text "space" =? 0 then SPC
  else if strcmp text "backspace" =? 0 then DEL
  else if strcmp text "delete" =? 0 then DEL
  else if (strcmp text "enter" =? 0) || (strcmp text "return" =? 0) then CR
  else text.

(** The spoken phrases of the table. *)
Definition voice_commands : list string :=
  ["new line"; "newline"; "tab"; "escape"; "space"; "backspace"; "delete";
   "enter"; "return"].

(** ** Machine integers *)

Module CInt.

Definition LONG_MIN : Z := - 2 ^ 63.
Definition LONG_MAX : Z := 2 ^ 63 - 1.
Definition INT_MIN : Z := - 2 ^ 31.
Definition INT_MAX : Z := 2 ^ 31 - 1.

Definition fits_long (z : Z) : Prop := LONG_MIN <= z <= LONG_MAX.
Definition fits_longb (z : Z) : bool := (LONG_MIN <=? z) && (z <=? LONG_MAX).

(** Reduction of a mathematical result to the 64-bit two's complement
    value a [long] holds.  Signed overflow is undefined in C; the
    embedding takes the wrapped value, and the theorems about arithmetic
    results carry the hypothesis that no operation overflows. *)
Definition wrap_long (z : Z) : Z := (z + 2 ^ 63) mod 2 ^ 64 - 2 ^ 63.

Definition long_add (a b : Z) : Z := wrap_long (a + b).
Definition long_sub (a b : Z) : Z := wrap_long (a - b).
Definition long_mul (a b : Z) : Z := wrap_long (a * b).

End CInt.

Import CInt.

(** ** Python objects, exceptions and the host's object graph *)

#[warnings="-register-all"]
Inductive PyObj : Type :=
| Py_None
| PyLong (z : Z)
| PyUnicode (s : string)
| PyTuple (items : list PyObj).

Inductive PyExc : Type :=
| PyExc_RuntimeError
| PyExc_ValueError
| PyExc_TypeError
| PyExc_OverflowError
| PyExc_AttributeError.

Record PyErr : Type := mkPyErr { err_type : PyExc; err_msg : string }.

(** The result of calling a method of a host object: it raises or it
    returns. *)
Inductive PyCall (A : Type) : Type :=
| Raises (e : PyErr)
| Returns (a : A).
Arguments Raises {A} e.
Arguments Returns {A} a.

(** Modelled from the spec: the host's objects (the classes of the boss,
    the windows, the screen, its cursor and its two buffers are declared
    outside accessibility.c).  Each record has one field per attribute or
    method the bridge uses; an attribute that cannot be read is [None].

    [screen.cursor], the CursorState collaborator. *)
Record Cursor : Type := mkCursor {
  cursor_x : option PyObj;
  cursor_y : option PyObj
}.

(** What [historybuf.as_text()] hands back when it returns. *)
Inductive AsText : Type :=
| as_text_none
| as_text_str (s : string).

(** Modelled from the spec: [screen.historybuf], the scrollback part of
    the TextBuffer collaborator: the outcome of [as_text()] ("render region
    as text") and of [__len__()] ("line count"). *)
Record HistoryBuf : Type := mkHistoryBuf {
  historybuf_as_text : PyCall AsText;
  historybuf_len : PyCall PyObj
}.

(** Modelled from the spec: [screen.linebuf], the live grid of the
    TextBuffer collaborator: the outcome of [str(linebuf)]. *)
Record LineBuf : Type := mkLineBuf {
  linebuf_str : PyCall string
}.

(** Modelled from the spec: the screen of a window, which holds the
    GridGeometry ([columns], [lines], [scrolled_by] and the length of the
    history buffer) next to the buffers and the cursor. *)
Record Screen : Type := mkScreen {
  screen_linebuf : option LineBuf;
  screen_historybuf : option HistoryBuf;
  screen_cursor : option Cursor;
  screen_columns : option PyObj;
  screen_lines : option PyObj;
  screen_scrolled_by : option PyObj
}.

(** Modelled from the spec: a window, that is its screen and the
    InputSink collaborator, the input pipeline of its child process.
    [window_child_input] is what the child has received so far;
    [window_write_error] is the exception [write_to_child] raises, if the
    pipeline refuses writes. *)
Record Window : Type := mkWindow {
  window_screen : option Screen;
  window_write_error : option PyErr;
  window_child_input : string
}.

(** Modelled from the spec: the boss object with the process-wide
    registry [window_id_map] from window identifier to window. *)
Record Boss : Type := mkBoss {
  boss_window_id_map : option (gmap Z Window)
}.

(** The interpreter state: [global_state.boss] and the error indicator. *)
Record State : Type := mkState {
  global_state_boss : option Boss;
  error_indicator : option PyErr
}.

(** The [PyObject *] that [get_window_from_id] hands to its callers.  It
    points to a window of the registry (the key under which the registry
    holds the object, and the object), or to some other Python object that
    came back from [window_id_map.get]; such an object has none of the
    attributes of a window. *)
Inductive WindowPtr : Type :=
| window_ptr (key : Z) (w : Window)
| object_ptr (o : PyObj).

(** ** The monad of C API calls

    A computation reads and updates the interpreter state.  A C function
    that yields a [PyObject *] is a computation of an [option]: [None] is
    the NULL pointer. *)

Definition Py (A : Type) : Type := State -> A * State.

Definition ret {A : Type} (a : A) : Py A := fun st => (a, st).

Definition bind {A B : Type} (m : Py A) (k : A -> Py B) : Py B :=
  fun st => let (a, st') := m st in k a st'.

Declare Scope py_scope.
Delimit Scope py_scope with py.
Notation "x <- m ;; k" := (bind m (fun x => k))
  (at level 100, m at next level, right associativity) : py_scope.
Notation "m ;; k" := (bind m (fun _ => k))
  (at level 100, right associativity) : py_scope.
(** [x <-? m ;; k]: the idiom [x = m; if (!x) return NULL; k]. *)
Notation "x <-? m ;; k" :=
  (bind m (fun o => match o with Some x => k | None => ret None end))
  (at level 100, m at next level, right associativity) : py_scope.
Local Open Scope py_scope.

Definition set_error_indicator (e : option PyErr) (st : State) : State :=
  {| global_state_boss := global_state_boss st; error_indicator := e |}.

Definition set_boss (b : option Boss) (st : State) : State :=
  {| global_state_boss := b; error_indicator := error_indicator st |}.

(** [PyErr_SetString(type, msg)] replaces the pending exception. *)
Definition PyErr_SetString (t : PyExc) (msg : string) : Py unit :=
  fun st => (tt, set_error_indicator (Some (mkPyErr t msg)) st).

(** Re-raising the exception [e] of a failed host call. *)
Definition PyErr_Restore (e : PyErr) : Py unit :=
  fun st => (tt, set_error_indicator (Some e) st).

(** [return NULL] after [PyErr_SetString]. *)
Definition fail_with {A : Type} (t : PyExc) (msg : string) : Py (option A) :=
  PyErr_SetString t msg ;; ret None.

(** [PyObject_GetAttrString(o, name)], given the attribute's slot in the
    host object: a missing attribute sets [AttributeError] and gives NULL. *)
Definition PyObject_GetAttrString {A : Type} (slot : option A) (name : string)
  : Py (option A) :=
  match slot with
  | Some a => ret (Some a)
  | None => fail_with PyExc_AttributeError name
  end.

(** The outcome of a host method call, as [PyObject_CallMethod] and
    [PyObject_Str] deliver it. *)
Definition PyObject_Call {A : Type} (r : PyCall A) : Py (option A) :=
  match r with
  | Returns a => ret (Some a)
  | Raises e => PyErr_Restore e ;; ret None
  end.

(** [PyLong_AsLong]: the value of a Python int that fits a [long];
    otherwise [-1] with [OverflowError] (or [TypeError] for an object that
    is no integer) left pending. *)
Definition PyLong_AsLong (o : PyObj) : Py Z :=
  match o with
  | PyLong z =>
      if fits_longb z then ret z
      else PyErr_SetString PyExc_OverflowError
             "Python int too large to convert to C long" ;; ret (-1)
  | _ => PyErr_SetString PyExc_TypeError "an integer is required" ;; ret (-1)
  end.

Definition PyLong_FromLong (z : Z) : PyObj := PyLong z.
Definition PyLong_FromSsize_t (z : Z) : PyObj := PyLong z.
Definition PyUnicode_FromString (s : string) : PyObj := PyUnicode s.

(** [PyUnicode_Concat] on the contents of two [str] objects. *)
Definition PyUnicode_Concat (a b : string) : string := a ++ b.

(** [PyUnicode_GET_LENGTH]; the macro is only defined on [str] objects. *)
Definition PyUnicode_GET_LENGTH (o : PyObj) : Z :=
  match o with
  | PyUnicode s => Z.of_nat (String.length s)
  | _ => 0
  end.

(** The decimal rendering of a [long] by the [%ld] conversion. *)
Definition format_ld (z : Z) : string := NilZero.string_of_int (Z.to_int z).

(** *** [PyArg_ParseTuple] for the three formats the file uses *)

(** The [TypeError] for a wrong number of arguments (message shortened). *)
Definition arity_error (n : nat) : Py unit :=
  PyErr_SetString PyExc_TypeError
    ("function takes exactly " ++ format_ld (Z.of_nat n) ++ " arguments").

(** Format ["O"]: one argument, any object. *)
Definition PyArg_ParseTuple_O (args : list PyObj) : Py (option PyObj) :=
  match args with
  | [o] => ret (Some o)
  | _ => arity_error 1 ;; ret None
  end.

(** Format ["Os"]: an object and a [str] without embedded NUL, converted to
    a C string. *)
Definition PyArg_ParseTuple_Os (args : list PyObj)
  : Py (option (PyObj * string)) :=
  match args with
  | [o; PyUnicode s] =>
      if cstring s then ret (Some (o, s))
      else fail_with PyExc_ValueError "embedded null character"
  | [_; _] => fail_with PyExc_TypeError "argument 2 must be str"
  | _ => arity_error 2 ;; ret None
  end.

(** Format ["Oi"]: an object and an integer that fits a C [int]. *)
Definition PyArg_ParseTuple_Oi (args : list PyObj)
  : Py (option (PyObj * Z)) :=
  match args with
  | [o; PyLong p] =>
      if negb (fits_longb p) then
        fail_with PyExc_OverflowError "Python int too large to convert to C long"
      else if INT_MAX <? p then
        fail_with PyExc_OverflowError "signed integer is greater than maximum"
      else if p <? INT_MIN then
        fail_with PyExc_OverflowError "signed integer is less than minimum"
      else ret (Some (o, p))
  | [_; _] => fail_with PyExc_TypeError "an integer is required"
  | _ => arity_error 2 ;; ret None
  end.

(** [x <-[ t , msg ] m ;; k]: the idiom
    [x = m; if (!x) { PyErr_SetString(t, msg); return NULL; } k]. *)
Notation "x <-[ t , msg ] m ;; k" :=
  (bind m (fun o => match o with Some x => k | None => fail_with t msg end))
  (at level 100, m at next level, right associativity) : py_scope.

(** ** The bridge (accessibility.c) *)

Definition read_global_state_boss : Py (option Boss) :=
  fun st => (global_state_boss st, st).

(** The item the registry holds under [key]: the registry is keyed by
    integers, any other key finds nothing. *)
Definition registry_item (m : gmap Z Window) (key : PyObj)
  : option WindowPtr :=
  match key with
  | PyLong k =>
      match m !! k with
      | Some w => Some (window_ptr k w)
      | None => None
      end
  | _ => None
  end.

(** The default handed to [get(key, default)] when it comes back:
    [Py_None] counts as nothing found, any other object is passed on. *)
Definition default_item (default : PyObj) : option WindowPtr :=
  match default with
  | Py_None => None
  | o => Some (object_ptr o)
  end.

(** [PyObject_CallMethod(window_id_map, "get", "O", obj)] (line 42).  With
    the format ["O"] an [obj] that is a tuple is unpacked into the
    arguments of the call: [()] and tuples of three or more items make
    [get] raise [TypeError] (NULL), [(key,)] is [get(key)], and
    [(key, default)] is [get(key, default)], which hands back [default]
    for a key the registry does not hold.  Any other object is the key
    itself.  [None] stands for both [Py_None] and NULL, which the caller
    treats alike. *)
Definition dict_get (m : gmap Z Window) (obj : PyObj) : option WindowPtr :=
  match obj with
  | PyTuple [] => None
  | PyTuple [key] => registry_item m key
  | PyTuple [key; default] =>
      match registry_item m key with
      | Some window => Some window
      | None => default_item default
      end
  | PyTuple _ => None
  | key => registry_item m key
  end.

(** Lines 27-52. *)
Definition get_window_from_id (window_id_obj : PyObj) : Py (option WindowPtr) :=
  boss <-[PyExc_RuntimeError, "Boss object not available"]
    read_global_state_boss ;;
  window_id_map <-[PyExc_RuntimeError, "Could not get window_id_map from Boss"]
    PyObject_GetAttrString (boss_window_id_map boss) "window_id_map" ;;
  match dict_get window_id_map window_id_obj with
  | Some window => ret (Some window)
  | None =>
      id <- PyLong_AsLong window_id_obj ;;
      fail_with PyExc_ValueError
        ("Window with ID " ++ format_ld id ++ " not found")
  end.

(** Lines 55-63. *)
Definition get_screen_from_window (window : WindowPtr) : Py (option Screen) :=
  screen <-[PyExc_RuntimeError, "Could not get screen from Window"]
    PyObject_GetAttrString
      match window with
      | window_ptr _ w => window_screen w
      | object_ptr _ => None
      end "screen" ;;
  ret (Some screen).

(** Lines 65-131. *)
Definition get_terminal_text (args : list PyObj) : Py (option PyObj) :=
  window_id_obj <-? PyArg_ParseTuple_O args ;;
  window <-? get_window_from_id window_id_obj ;;
  screen <-? get_screen_from_window window ;;
  linebuf <-[PyExc_RuntimeError, "Could not get linebuf from Screen"]
    PyObject_GetAttrString (screen_linebuf screen) "linebuf" ;;
  historybuf <-[PyExc_RuntimeError, "Could not get historybuf from Screen"]
    PyObject_GetAttrString (screen_historybuf screen) "historybuf" ;;
  let result := "" in
  historybuf_str <- PyObject_Call (historybuf_as_text historybuf) ;;
  let result :=
    match historybuf_str with
    | Some (as_text_str h) => PyUnicode_Concat result h
    | Some as_text_none | None => result
    end in
  linebuf_str <- PyObject_Call (linebuf_str linebuf) ;;
  let result :=
    match linebuf_str with
    | Some l =>
        let result :=
          if 0 <? PyUnicode_GET_LENGTH (PyUnicode result)
          then PyUnicode_Concat result LF
          else result in
        PyUnicode_Concat result l
    | None => result
    end in
  ret (Some (PyUnicode_FromString result)).

(** [scrolled_by] as both range functions read it: 0 when the attribute is
    missing. *)
Definition read_scrolled_by (screen : Screen) : Py Z :=
  scrolled_by_obj <- PyObject_GetAttrString (screen_scrolled_by screen) "scrolled_by" ;;
  match scrolled_by_obj with
  | Some o => PyLong_AsLong o
  | None => ret 0
  end.

(** [history_lines] as both range functions read it: 0 when the history
    buffer or its length cannot be had. *)
Definition read_history_lines (screen : Screen) : Py Z :=
  historybuf <- PyObject_GetAttrString (screen_historybuf screen) "historybuf" ;;
  match historybuf with
  | Some hb =>
      count_obj <- PyObject_Call (historybuf_len hb) ;;
      match count_obj with
      | Some c => PyLong_AsLong c
      | None => ret 0
      end
  | None => ret 0
  end.

(** Lines 133-210. *)
Definition get_cursor_text_position (args : list PyObj) : Py (option PyObj) :=
  window_id_obj <-? PyArg_ParseTuple_O args ;;
  window <-? get_window_from_id window_id_obj ;;
  screen <-? get_screen_from_window window ;;
  cursor <-[PyExc_RuntimeError, "Could not get cursor from Screen"]
    PyObject_GetAttrString (screen_cursor screen) "cursor" ;;
  x_obj <- PyObject_GetAttrString (cursor_x cursor) "x" ;;
  y_obj <- PyObject_GetAttrString (cursor_y cursor) "y" ;;
  match x_obj, y_obj with
  | Some x_obj, Some y_obj =>
      x <- PyLong_AsLong x_obj ;;
      y <- PyLong_AsLong y_obj ;;
      columns_obj <-[PyExc_RuntimeError, "Could not get columns from Screen"]
        PyObject_GetAttrString (screen_columns screen) "columns" ;;
      columns <- PyLong_AsLong columns_obj ;;
      scrolled_by <- read_scrolled_by screen ;;
      history_lines <- read_history_lines screen ;;
      let position :=
        long_add (long_mul (long_add (long_sub history_lines scrolled_by) y)
                           columns) x in
      ret (Some (PyLong_FromLong position))
  | _, _ => fail_with PyExc_RuntimeError "Could not get cursor position"
  end.

(** The window after its child has received [text]. *)
Definition deliver (text : string) (w : Window) : Window :=
  {| window_screen := window_screen w;
     window_write_error := window_write_error w;
     window_child_input := window_child_input w ++ text |}.

(** In-place update of the window object held under [key]. *)
Definition update_window (key : Z) (f : Window -> Window) : Py unit :=
  fun st =>
    (tt,
     set_boss
       (option_map
          (fun b => mkBoss (option_map (alter f key) (boss_window_id_map b)))
          (global_state_boss st))
       st).

(** Modelled from the spec: [window.write_to_child(text)], the method of
    the host's window class behind the InputSink collaborator
    ([writeToChild(bytes) -> Result<(), IOError>]): the text joins the
    child's input, or the method raises and nothing is written.  An object
    that is no window has no such method: the call raises
    [AttributeError]. *)
Definition write_to_child (window : WindowPtr) (text : string)
  : Py (option PyObj) :=
  match window with
  | window_ptr key w =>
      match window_write_error w with
      | Some e => PyErr_Restore e ;; ret None
      | None => update_window key (deliver text) ;; ret (Some Py_None)
      end
  | object_ptr _ =>
      PyErr_Restore (mkPyErr PyExc_AttributeError "write_to_child") ;;
      ret None
  end.

(** Lines 228-253. *)
Definition insert_text_at_cursor (args : list PyObj) : Py (option PyObj) :=
  parsed <-? PyArg_ParseTuple_Os args ;;
  let window_id_obj := fst parsed in
  let text := snd parsed in
  let processed_text := process_voice_command text in
  window <-? get_window_from_id window_id_obj ;;
  result <-[PyExc_RuntimeError, "Failed to write text to terminal"]
    write_to_child window processed_text ;;
  ret (Some Py_None).

(** Lines 255-263. *)
Definition set_cursor_position (args : list PyObj) : Py (option PyObj) :=
  parsed <-? PyArg_ParseTuple_Oi args ;;
  ret (Some Py_None).

(** Lines 265-279. *)
Definition get_number_of_characters (args : list PyObj) : Py (option PyObj) :=
  window_id_obj <-? PyArg_ParseTuple_O args ;;
  text <-? get_terminal_text args ;;
  let length := PyUnicode_GET_LENGTH text in
  ret (Some (PyLong_FromSsize_t length)).

(** Lines 281-347. *)
Definition get_visible_character_range (args : list PyObj)
  : Py (option PyObj) :=
  window_id_obj <-? PyArg_ParseTuple_O args ;;
  window <-? get_window_from_id window_id_obj ;;
  screen <-? get_screen_from_window window ;;
  columns_obj <- PyObject_GetAttrString (screen_columns screen) "columns" ;;
  lines_obj <- PyObject_GetAttrString (screen_lines screen) "lines" ;;
  match columns_obj, lines_obj with
  | Some columns_obj, Some lines_obj =>
      columns <- PyLong_AsLong columns_obj ;;
      lines <- PyLong_AsLong lines_obj ;;
      scrolled_by <- read_scrolled_by screen ;;
      history_lines <- read_history_lines screen ;;
      let start := long_mul (long_sub history_lines scrolled_by) columns in
      let length := long_mul lines columns in
      let start := if start <? 0 then 0 else start in
      ret (Some (PyTuple [PyLong_FromLong start; PyLong_FromLong length]))
  | _, _ => fail_with PyExc_RuntimeError "Could not get screen dimensions"
  end.

(** ** Views of the state used to state the properties *)

(** The registry [global_state.boss.window_id_map], when both the boss and
    its attribute can be reached. *)
Definition registry (st : State) : option (gmap Z Window) :=
  match global_state_boss st with
  | Some boss => boss_window_id_map boss
  | None => None
  end.

(** The state in which the window under [key] has become [w]. *)
Definition with_window (key : Z) (w : Window) (st : State) : State :=
  set_boss
    (option_map
       (fun b => mkBoss (option_map (insert key w) (boss_window_id_map b)))
       (global_state_boss st))
    st.

(** The geometry a screen reports through its integer attributes and the
    length of its history buffer. *)
Definition reports (screen : Screen) (columns history_lines scrolled_by : Z)
  : Prop :=
  screen_columns screen = Some (PyLong columns) /\
  screen_scrolled_by screen = Some (PyLong scrolled_by) /\
  exists hb, screen_historybuf screen = Some hb /\
             historybuf_len hb = Returns (PyLong history_lines).

(** The cursor position a screen reports. *)
Definition cursor_at (screen : Screen) (x y : Z) : Prop :=
  exists cursor, screen_cursor screen = Some cursor /\
                 cursor_x cursor = Some (PyLong x) /\
                 cursor_y cursor = Some (PyLong y).

(** The offset computation stays inside [long]: no step of
    [(history_lines - scrolled_by + y) * columns + x] overflows. *)
Definition offset_no_overflow (columns history_lines scrolled_by x y : Z)
  : Prop :=
  fits_long (history_lines - scrolled_by) /\
  fits_long (history_lines - scrolled_by + y) /\
  fits_long ((history_lines - scrolled_by + y) * columns) /\
  fits_long ((history_lines - scrolled_by + y) * columns + x).

(** The range computation stays inside [long]. *)
Definition range_no_overflow (columns lines history_lines scrolled_by : Z)
  : Prop :=
  fits_long (history_lines - scrolled_by) /\
  fits_long ((history_lines - scrolled_by) * columns) /\
  fits_long (lines * columns).

(** The separator between history and live text: a line feed after a
    non-empty history, nothing otherwise. *)
Definition separator (history : string) : string :=
  match history with
  | EmptyString => EmptyString
  | String _ _ => LF
  end.

(** What the child of the window under [key] has received. *)
Definition child_input (st : State) (key : Z) : option string :=
  match registry st with
  | Some m =>
      match m !! key with
      | Some w => Some (window_child_input w)
      | None => None
      end
  | None => None
  end.

(** ** Concrete terminals *)

Module Scenario.

(** A screen with the given geometry, cursor and rendered texts. *)
Definition screen_of (columns lines history_lines scrolled_by x y : Z)
                     (history live : string) : Screen :=
  {| screen_linebuf := Some (mkLineBuf (Returns live));
     screen_historybuf :=
       Some (mkHistoryBuf (Returns (as_text_str history))
                          (Returns (PyLong history_lines)));
     screen_cursor := Some (mkCursor (Some (PyLong x)) (Some (PyLong y)));
     screen_columns := Some (PyLong columns);
     screen_lines := Some (PyLong lines);
     screen_scrolled_by := Some (PyLong scrolled_by) |}.

(** A window showing [screen] whose child takes input and has received
    nothing yet. *)
Definition window_of (screen : Screen) : Window :=
  {| window_screen := Some screen;
     window_write_error := None;
     window_child_input := "" |}.

(** The state with that window registered under the identifier 1. *)
Definition state_of (screen : Screen) : State :=
  {| global_state_boss := Some (mkBoss (Some {[ 1 := window_of screen ]}));
     error_indicator := None |}.

(** 80 columns, 24 lines, 100 lines of history, not scrolled, cursor at
    column 5 of row 2. *)
Definition screen80 : Screen := screen_of 80 24 100 0 5 2 "$ make" "$ ls".
Definition state80 : State := state_of screen80.

(** The same terminal with nothing in the history. *)
Definition fresh : Screen := screen_of 80 24 0 0 0 0 "" "$ ls".
Definition state_fresh : State := state_of fresh.

(** An empty history and a viewport reported one row above the bottom,
    cursor in the top left corner. *)
Definition scrolled : Screen := screen_of 80 24 0 1 0 0 "" "$ ls".
Definition state_scrolled : State := state_of scrolled.

End Scenario.

(** ** Posting notifications (accessibility.c, lines 349-369) *)

(** Modelled from the spec: [cocoa_post_accessibility_notification], the
    Objective-C function of cocoa_window.m behind [postNotification(name)]:
    the name goes to the OS accessibility subsystem, here the list of the
    names posted so far. *)
Definition cocoa_post_accessibility_notification
    (notification_name : string) (posted : list string) : list string :=
  (posted ++ [notification_name])%list.

(** [APPLE] says whether [__APPLE__] is defined.  The function works on the
    interpreter state and on the names posted so far. *)
Definition post_accessibility_notification
    (APPLE : bool) (args : list PyObj) (st : State) (posted : list string)
  : option PyObj * State * list string :=
  let (parsed, st') := PyArg_ParseTuple_Os args st in
  match parsed with
  | None => (None, st', posted)
  | Some (window_id_obj, notification_type) =>
      let posted' :=
        if APPLE then
          if strcmp notification_type "value_changed" =? 0 then
            cocoa_post_accessibility_notification
              "NSAccessibilityValueChangedNotification" posted
          else if strcmp notification_type "selection_changed" =? 0 then
            cocoa_post_accessibility_notification
              "NSAccessibilitySelectedTextChangedNotification" posted
          else if strcmp notification_type "focus_changed" =? 0 then
            cocoa_post_accessibility_notification
              "NSAccessibilityFocusedUIElementChangedNotification" posted
          else if strcmp notification_type "layout_changed" =? 0 then
            cocoa_post_accessibility_notification
              "NSAccessibilityLayoutChangedNotification" posted
          else posted
        else posted in
      (Some Py_None, st', posted')
  end.

(** The notification kinds the function knows, each with the name it
    posts. *)
Definition notification_names : list (string * string) :=
  [("value_changed", "NSAccessibilityValueChangedNotification");
   ("selection_changed", "NSAccessibilitySelectedTextChangedNotification");
   ("focus_changed", "NSAccessibilityFocusedUIElementChangedNotification");
   ("layout_changed", "NSAccessibilityLayoutChangedNotification")].

(** ** Further views of the state *)

(** A computation that leaves the host (the boss, its registry and the
    windows) as it found it; it may still set the error indicator. *)
Definition read_only {A : Type} (m : Py A) : Prop :=
  forall st : State, global_state_boss (snd (m st)) = global_state_boss st.

(** The window under [key] is in the registry and shows [screen]. *)
Definition shows (st : State) (key : Z) (screen : Screen) : Prop :=
  exists (m : gmap Z Window) (w : Window),
    registry st = Some m /\ m !! key = Some w /\
    window_screen w = Some screen.

(** The window under [key] shows a screen that reports the cursor (x, y)
    and the geometry in integers a [long] holds, and the offset
    computation does not overflow. *)
Definition cursor_reading (st : State) (key : Z) (screen : Screen)
    (columns history_lines scrolled_by x y : Z) : Prop :=
  shows st key screen /\
  cursor_at screen x y /\
  reports screen columns history_lines scrolled_by /\
  fits_long x /\ fits_long y /\ fits_long columns /\
  fits_long history_lines /\ fits_long scrolled_by /\
  offset_no_overflow columns history_lines scrolled_by x y.

(** The history of a screen cannot be counted: the buffer is missing, or
    its [__len__] raises; [e] is the exception this leaves. *)
Definition history_unreadable (screen : Screen) (e : PyErr) : Prop :=
  (screen_historybuf screen = None /\
   e = mkPyErr PyExc_AttributeError "historybuf")
  \/ (exists hb, screen_historybuf screen = Some hb /\
                  historybuf_len hb = Raises e).

(** The pending exception a failed lookup of an attribute leaves. *)
Definition attribute_error (name : string) : PyErr :=
  mkPyErr PyExc_AttributeError name.

(** ** Further terminals *)

Module Cases.

(** No boss yet, and a boss whose registry cannot be read. *)
Definition state_no_boss : State :=
  {| global_state_boss := None; error_indicator := None |}.
Definition state_no_registry : State :=
  {| global_state_boss := Some (mkBoss None); error_indicator := None |}.

(** A window without a screen, registered under 1. *)
Definition state_no_screen : State :=
  {| global_state_boss := Some (mkBoss (Some {[ 1 := mkWindow None None "" ]}));
     error_indicator := None |}.

Definition io_error : PyErr := mkPyErr PyExc_RuntimeError "child is gone".

(** The screen of the scenario with a history buffer that cannot render,
    and with a line buffer that cannot render. *)
Definition history_raises : Screen :=
  {| screen_linebuf := Some (mkLineBuf (Returns "$ ls"));
     screen_historybuf :=
       Some (mkHistoryBuf (Raises io_error) (Returns (PyLong 100)));
     screen_cursor := Some (mkCursor (Some (PyLong 5)) (Some (PyLong 2)));
     screen_columns := Some (PyLong 80);
     screen_lines := Some (PyLong 24);
     screen_scrolled_by := Some (PyLong 0) |}.

Definition live_raises : Screen :=
  {| screen_linebuf := Some (mkLineBuf (Raises io_error));
     screen_historybuf :=
       Some (mkHistoryBuf (Returns (as_text_str "$ make"))
                          (Returns (PyLong 100)));
     screen_cursor := Some (mkCursor (Some (PyLong 5)) (Some (PyLong 2)));
     screen_columns := Some (PyLong 80);
     screen_lines := Some (PyLong 24);
     screen_scrolled_by := Some (PyLong 0) |}.

(** A screen that has lost its buffers, cursor and dimensions. *)
Definition bare : Screen :=
  {| screen_linebuf := None;
     screen_historybuf := None;
     screen_cursor := None;
     screen_columns := None;
     screen_lines := None;
     screen_scrolled_by := Some (PyLong 0) |}.

(** The screen of the scenario without its history buffer. *)
Definition no_history : Screen :=
  {| screen_linebuf := Some (mkLineBuf (Returns "$ ls"));
     screen_historybuf := None;
     screen_cursor := Some (mkCursor (Some (PyLong 5)) (Some (PyLong 2)));
     screen_columns := Some (PyLong 80);
     screen_lines := Some (PyLong 24);
     screen_scrolled_by := Some (PyLong 0) |}.

(** Two windows: 1 shows the scenario's screen, 2 a fresh one. *)
Definition two_windows : gmap Z Window :=
  {[ 1 := Scenario.window_of Scenario.screen80;
     2 := Scenario.window_of Scenario.fresh ]}.
Definition state_two : State :=
  {| global_state_boss := Some (mkBoss (Some two_windows));
     error_indicator := None |}.

(** The scenario's terminal with the cursor one cell further right. *)
Definition screen80_right : Screen :=
  Scenario.screen_of 80 24 100 0 6 2 "$ make" "$ ls".

End Cases.

(** * Properties *)

(** ** [strcmp] decides equality of C strings *)

Lemma uchar_inj (a b : ascii) : uchar a = uchar b -> a = b.
Proof.
  unfold uchar. intros H. apply N2Z.inj in H.
  rewrite <- (ascii_N_embedding a), <- (ascii_N_embedding b). now f_equal.
Qed.

Lemma uchar_zero (a : ascii) : uchar a = 0 -> a = NUL.
Proof. intros H. apply uchar_inj. exact H. Qed.

Lemma strcmp_refl (s : string) : strcmp s s = 0.
Proof.
  induction s as [|c r IH]; simpl; [reflexivity|].
  rewrite Ascii.eqb_refl. now destruct (Ascii.eqb c NUL).
Qed.

Lemma strcmp_zero_eq (s1 : string) :
  forall s2, cstring s1 = true -> cstring s2 = true ->
             strcmp s1 s2 = 0 -> s1 = s2.
Proof.
  induction s1 as [|c1 r1 IH]; intros [|c2 r2] W1 W2 E; simpl in *.
  - reflexivity.
  - apply andb_prop in W2 as [N2 _].
    assert (c2 = NUL) by (apply uchar_zero; lia). subst c2.
    now rewrite Ascii.eqb_refl in N2.
  - apply andb_prop in W1 as [N1 _].
    assert (c1 = NUL) by (apply uchar_zero; lia). subst c1.
    now rewrite Ascii.eqb_refl in N1.
  - apply andb_prop in W1 as [N1 W1]. apply andb_prop in W2 as [_ W2].
    destruct (Ascii.eqb c1 c2) eqn:Ec.
    + apply Ascii.eqb_eq in Ec. subst c2.
      destruct (Ascii.eqb c1 NUL); [discriminate N1|].
      f_equal. now apply IH.
    + assert (c1 = c2) by (apply uchar_inj; lia). subst c2.
      now rewrite Ascii.eqb_refl in Ec.
Qed.

Lemma strcmp_zero_iff (s1 s2 : string) :
  cstring s1 = true -> cstring s2 = true ->
  strcmp s1 s2 = 0 <-> s1 = s2.
Proof.
  intros W1 W2. split.
  - now apply strcmp_zero_eq.
  - intros ->. apply strcmp_refl.
Qed.

Lemma strcmp_eqb_false (s lit : string) :
  cstring s = true -> cstring lit = true -> s <> lit ->
  (strcmp s lit =? 0) = false.
Proof.
  intros Ws Wl Hne. apply Z.eqb_neq. intros E. apply Hne.
  now apply strcmp_zero_iff.
Qed.

(** ** The command normaliser *)

(** C3. [process_voice_command] maps "new line" and "newline" to LF, "tab"
    to HT, "escape" to ESC, "space" to a blank, "backspace" and "delete" to
    DEL, "enter" and "return" to CR, and hands back every other C string
    unchanged; the comparison is exact and case-sensitive, so "NEW LINE"
    and "hello world" come back as they went in. *)
Theorem process_voice_command_table :
  process_voice_command "new line" = LF /\
  process_voice_command "newline" = LF /\
  process_voice_command "tab" = HT /\
  process_voice_command "escape" = ESC /\
  process_voice_command "space" = SPC /\
  process_voice_command "backspace" = DEL /\
  process_voice_command "delete" = DEL /\
  process_voice_command "enter" = CR /\
  process_voice_command "return" = CR /\
  (forall text : string,
      cstring text = true -> ~ In text voice_commands ->
      process_voice_command text = text) /\
  process_voice_command "NEW LINE" = "NEW LINE" /\
  process_voice_command "hello world" = "hello world".
Proof.
  repeat (split; [reflexivity|]).
  split; [|split; reflexivity].
  intros text W Hnot. unfold process_voice_command.
  assert (Hne : forall lit, In lit voice_commands ->
                            (strcmp text lit =? 0) = false).
  { intros lit Hin. apply strcmp_eqb_false; [exact W| |congruence].
    simpl in Hin.
    repeat (destruct Hin as [<-|Hin]; [reflexivity|]). destruct Hin. }
  rewrite !Hne by (simpl; tauto). reflexivity.
Qed.

(** The pass-through part of C3 at a dictated phrase that is no command. *)
Lemma process_voice_command_table_witness :
  process_voice_command "ls -la" = "ls -la".
Proof.
  apply (proj1 (proj2 (proj2 (proj2 (proj2 (proj2 (proj2 (proj2 (proj2 (proj2
           process_voice_command_table)))))))))).
  - reflexivity.
  - simpl. intros H.
    repeat (destruct H as [H|H]; [discriminate H|]). exact H.
Defined.

(** C10. [process_voice_command] is idempotent: none of the control
    strings it emits is a spoken phrase of the table, and a string it hands
    back unchanged is handed back unchanged again. *)
Theorem process_voice_command_idempotent (text : string) :
  process_voice_command (process_voice_command text)
  = process_voice_command text.
Proof.
  unfold process_voice_command at 2 3.
  destruct ((strcmp text "new line" =? 0) || (strcmp text "newline" =? 0))
    eqn:E1; [reflexivity|].
  destruct (strcmp text "tab" =? 0) eqn:E2; [reflexivity|].
  destruct (strcmp text "escape" =? 0) eqn:E3; [reflexivity|].
  destruct (strcmp text "space" =? 0) eqn:E4; [reflexivity|].
  destruct (strcmp text "backspace" =? 0) eqn:E5; [reflexivity|].
  destruct (strcmp text "delete" =? 0) eqn:E6; [reflexivity|].
  destruct ((strcmp text "enter" =? 0) || (strcmp text "return" =? 0))
    eqn:E7; [reflexivity|].
  unfold process_voice_command.
  now rewrite E1, E2, E3, E4, E5, E6, E7.
Qed.

(** ** Running the monad *)

Lemma bind_run {A B : Type} (m : Py A) (k : A -> Py B) (st st' : State) (a : A) :
  m st = (a, st') -> bind m k st = k a st'.
Proof. intros H. unfold bind. now rewrite H. Qed.

Lemma bind_ret {A B : Type} (a : A) (k : A -> Py B) (st : State) :
  bind (ret a) k st = k a st.
Proof. reflexivity. Qed.

(** One step of the program: a call whose outcome [H] states, or the
    reading of an attribute that is there. *)
Ltac run_with H := rewrite (bind_run _ _ _ _ _ H); cbv beta iota.
Ltac run_ret := rewrite bind_ret; cbv beta iota.

(** ** Machine arithmetic inside its range *)

Ltac fits := unfold fits_long, LONG_MIN, LONG_MAX, INT_MIN, INT_MAX in *; lia.

Lemma wrap_long_fits (z : Z) : fits_long z -> wrap_long z = z.
Proof.
  unfold fits_long, LONG_MIN, LONG_MAX, wrap_long. intros H.
  rewrite Z.mod_small; lia.
Qed.

Lemma wrap_long_range (z : Z) : fits_long (wrap_long z).
Proof.
  unfold fits_long, LONG_MIN, LONG_MAX, wrap_long.
  pose proof (Z.mod_pos_bound (z + 2 ^ 63) (2 ^ 64)). lia.
Qed.

Lemma fits_longb_true (z : Z) : fits_long z -> fits_longb z = true.
Proof.
  unfold fits_long, fits_longb. intros H.
  apply andb_true_intro. split; apply Z.leb_le; lia.
Qed.

Lemma PyLong_AsLong_fits (z : Z) (st : State) :
  fits_long z -> PyLong_AsLong (PyLong z) st = (z, st).
Proof. intros H. simpl. now rewrite (fits_longb_true z H). Qed.

(** ** Resolving a window identifier *)

Lemma registry_boss (st : State) (m : gmap Z Window) :
  registry st = Some m ->
  exists boss, global_state_boss st = Some boss /\
               boss_window_id_map boss = Some m.
Proof.
  unfold registry. destruct (global_state_boss st) as [boss|]; [|discriminate].
  intros H. now exists boss.
Qed.

Lemma get_window_from_id_unknown (st : State) (m : gmap Z Window) (wid : PyObj) :
  registry st = Some m -> dict_get m wid = None ->
  get_window_from_id wid st
  = (None,
     set_error_indicator
       (Some (mkPyErr PyExc_ValueError
                ("Window with ID " ++ format_ld (fst (PyLong_AsLong wid st))
                 ++ " not found")))
       st).
Proof.
  intros Hr Hk. apply registry_boss in Hr as (boss & Hb & Hm).
  unfold get_window_from_id, bind, read_global_state_boss.
  rewrite Hb, Hm. simpl. rewrite Hk.
  destruct wid as [|z|s|items]; simpl; try reflexivity.
  now destruct (fits_longb z).
Qed.

(** ** Tuples passed as identifiers *)

Lemma dict_get_integer (m : gmap Z Window) (k : Z) :
  dict_get m (PyLong k) = None <-> m !! k = None.
Proof. simpl. destruct (m !! k); split; intros H; congruence. Qed.

Lemma dict_get_singleton (m : gmap Z Window) (key : PyObj) :
  dict_get m (PyTuple [key]) = registry_item m key.
Proof. reflexivity. Qed.

(** The tuple [(1,)] resolves the window 1, for the queries and for the
    insertion alike. *)
Example tuple_identifier_is_unpacked :
  get_terminal_text [PyTuple [PyLong 1]] Scenario.state80
  = get_terminal_text [PyLong 1] Scenario.state80
  /\ child_input
       (snd (insert_text_at_cursor [PyTuple [PyLong 1]; PyUnicode "ls"]
               Scenario.state80)) 1
     = Some "ls".
Proof. split; reflexivity. Qed.

(** The tuple [(7, 5)] makes [get] hand back its default 5, which is no
    window: the query fails on the screen, not on the lookup. *)
Example tuple_default_is_no_window :
  get_terminal_text [PyTuple [PyLong 7; PyLong 5]] Scenario.state80
  = (None,
     set_error_indicator
       (Some (mkPyErr PyExc_RuntimeError "Could not get screen from Window"))
       Scenario.state80).
Proof. reflexivity. Qed.

(** ** A window that the registry holds *)

Section Resolved.

Context (st : State) (m : gmap Z Window) (k : Z) (w : Window).
Hypothesis Hregistry : registry st = Some m.
Hypothesis Hwindow : m !! k = Some w.

Lemma get_window_from_id_found :
  get_window_from_id (PyLong k) st = (Some (window_ptr k w), st).
Proof.
  destruct (registry_boss st m Hregistry) as (boss & Hb & Hm).
  unfold get_window_from_id, bind, read_global_state_boss.
  rewrite Hb, Hm. simpl. now rewrite Hwindow.
Qed.

Lemma update_window_found (f : Window -> Window) :
  update_window k f st = (tt, with_window k (f w) st).
Proof.
  destruct (registry_boss st m Hregistry) as (boss & Hb & Hm).
  unfold update_window, with_window. rewrite Hb. simpl. rewrite Hm. simpl.
  now rewrite (alter_alt_Some f m k w Hwindow).
Qed.

Lemma child_input_with_window (w' : Window) :
  child_input (with_window k w' st) k = Some (window_child_input w').
Proof.
  destruct (registry_boss st m Hregistry) as (boss & Hb & Hm).
  unfold child_input, registry, with_window. simpl. rewrite Hb. simpl.
  rewrite Hm. simpl. now rewrite lookup_insert_eq.
Qed.

(** The host state apart from the window under [k] is as before. *)
Lemma registry_with_window (w' : Window) :
  registry (with_window k w' st) = Some (<[k := w']> m).
Proof.
  destruct (registry_boss st m Hregistry) as (boss & Hb & Hm).
  unfold registry, with_window. simpl. rewrite Hb. simpl. now rewrite Hm.
Qed.

Section OnScreen.

Context (screen : Screen).
Hypothesis Hscreen : window_screen w = Some screen.

Lemma get_screen_from_window_found :
  get_screen_from_window (window_ptr k w) st = (Some screen, st).
Proof. unfold get_screen_from_window. now rewrite Hscreen. Qed.

Section Geometry.

Context (columns history_lines scrolled_by : Z).
Hypothesis Hreports : reports screen columns history_lines scrolled_by.
Hypothesis Fcolumns : fits_long columns.
Hypothesis Fhistory : fits_long history_lines.
Hypothesis Fscrolled : fits_long scrolled_by.

Lemma read_scrolled_by_reported (st0 : State) :
  read_scrolled_by screen st0 = (scrolled_by, st0).
Proof.
  destruct Hreports as (_ & Hs & _). unfold read_scrolled_by. rewrite Hs.
  simpl PyObject_GetAttrString. run_ret.
  now apply PyLong_AsLong_fits.
Qed.

Lemma read_history_lines_reported (st0 : State) :
  read_history_lines screen st0 = (history_lines, st0).
Proof.
  destruct Hreports as (_ & _ & hb & Hhb & Hlen). unfold read_history_lines.
  rewrite Hhb. simpl PyObject_GetAttrString. run_ret.
  rewrite Hlen. simpl PyObject_Call. run_ret.
  now apply PyLong_AsLong_fits.
Qed.

Lemma get_cursor_text_position_reported (x y : Z) :
  cursor_at screen x y ->
  fits_long x -> fits_long y ->
  offset_no_overflow columns history_lines scrolled_by x y ->
  get_cursor_text_position [PyLong k] st
  = (Some (PyLong ((history_lines - scrolled_by + y) * columns + x)), st).
Proof.
  intros (cursor & Hc & Hx & Hy) Fx Fy (O1 & O2 & O3 & O4).
  unfold get_cursor_text_position. simpl PyArg_ParseTuple_O. run_ret.
  run_with get_window_from_id_found.
  run_with get_screen_from_window_found.
  rewrite Hc. simpl PyObject_GetAttrString. run_ret.
  rewrite Hx, Hy. simpl PyObject_GetAttrString. do 2 run_ret.
  run_with (PyLong_AsLong_fits x st Fx).
  run_with (PyLong_AsLong_fits y st Fy).
  rewrite (proj1 Hreports). simpl PyObject_GetAttrString. run_ret.
  run_with (PyLong_AsLong_fits columns st Fcolumns).
  run_with (read_scrolled_by_reported st).
  run_with (read_history_lines_reported st).
  unfold ret, PyLong_FromLong, long_add, long_mul, long_sub.
  now rewrite (wrap_long_fits _ O1), (wrap_long_fits _ O2),
              (wrap_long_fits _ O3), (wrap_long_fits _ O4).
Qed.

Lemma get_visible_character_range_reported (lines : Z) :
  screen_lines screen = Some (PyLong lines) ->
  fits_long lines ->
  range_no_overflow columns lines history_lines scrolled_by ->
  get_visible_character_range [PyLong k] st
  = (Some (PyTuple [PyLong (Z.max 0 ((history_lines - scrolled_by) * columns));
                    PyLong (lines * columns)]), st).
Proof.
  intros Hl Fl (O1 & O2 & O3).
  unfold get_visible_character_range. simpl PyArg_ParseTuple_O. run_ret.
  run_with get_window_from_id_found.
  run_with get_screen_from_window_found.
  rewrite (proj1 Hreports), Hl. simpl PyObject_GetAttrString. do 2 run_ret.
  run_with (PyLong_AsLong_fits columns st Fcolumns).
  run_with (PyLong_AsLong_fits lines st Fl).
  run_with (read_scrolled_by_reported st).
  run_with (read_history_lines_reported st).
  unfold ret, PyLong_FromLong, long_mul, long_sub.
  rewrite (wrap_long_fits _ O1), (wrap_long_fits _ O2), (wrap_long_fits _ O3).
  destruct (Z.ltb_spec ((history_lines - scrolled_by) * columns) 0);
    repeat f_equal; lia.
Qed.

End Geometry.

End OnScreen.

End Resolved.

(** ** Unknown window identifiers *)

(** C7. For a window identifier that the registry does not hold, that is
    one for which [window_id_map.get] finds nothing ([dict_get] is
    [None]: an integer or string that is no key, or a tuple whose
    unpacked call finds nothing), each of the four queries fails (returns
    NULL) with the lookup error of the bridge, the [ValueError] "Window
    with ID <n> not found", and the host state (the boss, its registry
    and the windows) is what it was. *)
Theorem unknown_window_id_fails (st : State) (m : gmap Z Window) (wid : PyObj) :
  registry st = Some m -> dict_get m wid = None ->
  let e := mkPyErr PyExc_ValueError
             ("Window with ID " ++ format_ld (fst (PyLong_AsLong wid st))
              ++ " not found") in
  let st' := set_error_indicator (Some e) st in
  get_terminal_text [wid] st = (None, st') /\
  get_cursor_text_position [wid] st = (None, st') /\
  get_number_of_characters [wid] st = (None, st') /\
  get_visible_character_range [wid] st = (None, st') /\
  global_state_boss st' = global_state_boss st.
Proof.
  intros Hr Hk e st'.
  pose proof (get_window_from_id_unknown st m wid Hr Hk) as Hw.
  fold e in Hw. fold st' in Hw.
  assert (Htext : get_terminal_text [wid] st = (None, st')).
  { unfold get_terminal_text. simpl PyArg_ParseTuple_O. run_ret.
    now run_with Hw. }
  repeat split.
  - exact Htext.
  - unfold get_cursor_text_position. simpl PyArg_ParseTuple_O. run_ret.
    now run_with Hw.
  - unfold get_number_of_characters. simpl PyArg_ParseTuple_O. run_ret.
    now run_with Htext.
  - unfold get_visible_character_range. simpl PyArg_ParseTuple_O. run_ret.
    now run_with Hw.
Qed.

(** C7 at the identifier 7, which the registry of [state80] does not hold. *)
Lemma unknown_window_id_fails_witness :
  get_terminal_text [PyLong 7] Scenario.state80
  = (None,
     set_error_indicator
       (Some (mkPyErr PyExc_ValueError "Window with ID 7 not found"))
       Scenario.state80).
Proof.
  refine (proj1 (unknown_window_id_fails Scenario.state80
                   {[ 1 := Scenario.window_of Scenario.screen80 ]}
                   (PyLong 7) _ _)); reflexivity.
Defined.

(** ** The cursor offset *)

(** C1. For a window whose screen reports the cursor (x, y), the column
    count, the number of history lines and the scroll offset, all as
    integers a [long] holds and with no overflow in the computation,
    [get_cursor_text_position] returns exactly
    [(history_lines - scrolled_by + y) * columns + x] and changes nothing;
    for 80 columns, 100 history lines, no scroll and the cursor at (5, 2)
    this is 8165. *)
Theorem cursor_offset_formula :
  (forall (st : State) (m : gmap Z Window) (k : Z) (w : Window)
          (screen : Screen) (columns history_lines scrolled_by x y : Z),
      registry st = Some m -> m !! k = Some w ->
      window_screen w = Some screen ->
      cursor_at screen x y ->
      reports screen columns history_lines scrolled_by ->
      fits_long x -> fits_long y -> fits_long columns ->
      fits_long history_lines -> fits_long scrolled_by ->
      offset_no_overflow columns history_lines scrolled_by x y ->
      get_cursor_text_position [PyLong k] st
      = (Some (PyLong ((history_lines - scrolled_by + y) * columns + x)), st))
  /\ get_cursor_text_position [PyLong 1] Scenario.state80
     = (Some (PyLong 8165), Scenario.state80).
Proof.
  split; [|reflexivity].
  intros. eapply get_cursor_text_position_reported; eauto.
Qed.

(** C1 on the terminal of the scenario. *)
Lemma cursor_offset_formula_witness :
  get_cursor_text_position [PyLong 1] Scenario.state80
  = (Some (PyLong ((100 - 0 + 2) * 80 + 5)), Scenario.state80).
Proof.
  apply (proj1 cursor_offset_formula Scenario.state80
           {[ 1 := Scenario.window_of Scenario.screen80 ]} 1
           (Scenario.window_of Scenario.screen80) Scenario.screen80
           80 100 0 5 2); try reflexivity; try fits.
  - eexists. repeat split; reflexivity.
  - repeat split. eexists. split; reflexivity.
  - repeat split; fits.
Defined.

(** With the scroll offset inside the history the offset lies in the
    buffer: the bound of the data model holds whenever
    [scrolled_by <= history_lines + y]. *)
Lemma cursor_offset_in_buffer
    (st : State) (m : gmap Z Window) (k : Z) (w : Window)
    (screen : Screen) (columns lines history_lines scrolled_by x y : Z) :
  registry st = Some m -> m !! k = Some w ->
  window_screen w = Some screen ->
  cursor_at screen x y ->
  reports screen columns history_lines scrolled_by ->
  0 < columns -> 0 < lines -> 0 <= history_lines -> 0 <= scrolled_by ->
  0 <= x < columns -> 0 <= y < lines ->
  scrolled_by <= history_lines + y ->
  fits_long (history_lines * columns + lines * columns) ->
  exists offset,
    get_cursor_text_position [PyLong k] st = (Some (PyLong offset), st) /\
    0 <= offset <= history_lines * columns + lines * columns.
Proof.
  intros Hr Hk Hscr Hcur Hrep Hc Hl Hh Hs Hx Hy Hsc F.
  exists ((history_lines - scrolled_by + y) * columns + x).
  assert (B1 : 0 <= (history_lines - scrolled_by + y) * columns) by nia.
  assert (B2 : (history_lines - scrolled_by + y) * columns + x
               <= history_lines * columns + lines * columns) by nia.
  assert (B3 : history_lines + lines
               <= history_lines * columns + lines * columns) by nia.
  split; [|lia].
  eapply get_cursor_text_position_reported; eauto; repeat split; fits.
Qed.

(** C2. The bound [0 <= offset] does not hold for every valid geometry:
    with 80 columns, 24 lines, an empty history, the cursor at (0, 0) and
    a scroll offset of 1, [get_cursor_text_position] returns -80.  Nothing
    clamps the offset, unlike the start of the visible range. *)
Theorem cursor_offset_negative :
  reports Scenario.scrolled 80 0 1 /\
  screen_lines Scenario.scrolled = Some (PyLong 24) /\
  cursor_at Scenario.scrolled 0 0 /\
  get_cursor_text_position [PyLong 1] Scenario.state_scrolled
  = (Some (PyLong (-80)), Scenario.state_scrolled) /\
  ~ (0 <= -80 <= 0 * 80 + 24 * 80).
Proof.
  split; [repeat split; eexists; split; reflexivity|].
  split; [reflexivity|].
  split; [eexists; repeat split; reflexivity|].
  split; [reflexivity|lia].
Qed.

(** ** The visible range *)

(** Whatever the screen holds, a range that is returned starts at a
    non-negative offset. *)
Lemma get_visible_character_range_start
    (args : list PyObj) (st st' : State) (start length : Z) :
  get_visible_character_range args st
  = (Some (PyTuple [PyLong start; PyLong length]), st') ->
  0 <= start.
Proof.
  unfold get_visible_character_range, bind, ret, fail_with.
  intros H. repeat case_match; simplify_eq; try discriminate.
  all: match goal with
       | E : (_ <? 0) = _ |- _ => apply Z.ltb_ge in E; exact E
       | _ => reflexivity
       end.
Qed.

(** C6. For a window whose screen reports its geometry in integers a
    [long] holds, and with no overflow in the two products,
    [get_visible_character_range] returns the pair of
    [max 0 ((history_lines - scrolled_by) * columns)] and
    [lines * columns]; the start of any range it returns is non-negative,
    also when the scroll offset exceeds the history; for 80 columns, 24
    lines and 100 history lines the range is (8000, 1920). *)
Theorem visible_range_formula :
  (forall (st : State) (m : gmap Z Window) (k : Z) (w : Window)
          (screen : Screen) (columns lines history_lines scrolled_by : Z),
      registry st = Some m -> m !! k = Some w ->
      window_screen w = Some screen ->
      reports screen columns history_lines scrolled_by ->
      screen_lines screen = Some (PyLong lines) ->
      fits_long columns -> fits_long lines ->
      fits_long history_lines -> fits_long scrolled_by ->
      range_no_overflow columns lines history_lines scrolled_by ->
      get_visible_character_range [PyLong k] st
      = (Some (PyTuple
                 [PyLong (Z.max 0 ((history_lines - scrolled_by) * columns));
                  PyLong (lines * columns)]), st))
  /\ (forall (args : list PyObj) (st st' : State) (start length : Z),
         get_visible_character_range args st
         = (Some (PyTuple [PyLong start; PyLong length]), st') ->
         0 <= start)
  /\ get_visible_character_range [PyLong 1] Scenario.state80
     = (Some (PyTuple [PyLong 8000; PyLong 1920]), Scenario.state80)
  /\ get_visible_character_range [PyLong 1] Scenario.state_scrolled
     = (Some (PyTuple [PyLong 0; PyLong 1920]), Scenario.state_scrolled).
Proof.
  split; [|split; [|split; reflexivity]].
  - intros. eapply get_visible_character_range_reported; eauto.
  - intros args st st' start length H.
    exact (get_visible_character_range_start args st st' start length H).
Qed.

(** C6 on a viewport scrolled past an empty history. *)
Lemma visible_range_formula_witness :
  get_visible_character_range [PyLong 1] Scenario.state_scrolled
  = (Some (PyTuple [PyLong (Z.max 0 ((0 - 1) * 80)); PyLong (24 * 80)]),
     Scenario.state_scrolled)
  /\ 0 <= Z.max 0 ((0 - 1) * 80).
Proof.
  assert (H : get_visible_character_range [PyLong 1] Scenario.state_scrolled
              = (Some (PyTuple [PyLong (Z.max 0 ((0 - 1) * 80));
                                PyLong (24 * 80)]),
                 Scenario.state_scrolled)).
  { apply (proj1 visible_range_formula Scenario.state_scrolled
             {[ 1 := Scenario.window_of Scenario.scrolled ]} 1
             (Scenario.window_of Scenario.scrolled) Scenario.scrolled
             80 24 0 1); try reflexivity; try fits.
    - repeat split. eexists. split; reflexivity.
    - repeat split; fits. }
  split; [exact H|].
  exact (proj1 (proj2 visible_range_formula) _ _ _ _ _ H).
Defined.

(** ** The terminal text *)

Lemma append_assoc (a b c : string) : (a ++ b) ++ c = a ++ (b ++ c).
Proof.
  induction a as [|x a IH]; [reflexivity|].
  change (String x ((a ++ b) ++ c) = String x (a ++ (b ++ c))).
  now f_equal.
Qed.

Lemma PyUnicode_GET_LENGTH_positive (s : string) :
  (0 <? PyUnicode_GET_LENGTH (PyUnicode s))
  = match s with EmptyString => false | String _ _ => true end.
Proof. now destruct s. Qed.

Lemma get_terminal_text_is_str (args : list PyObj) (st st' : State) (o : PyObj) :
  get_terminal_text args st = (Some o, st') -> exists text, o = PyUnicode text.
Proof.
  unfold get_terminal_text, bind, ret, fail_with, PyUnicode_FromString.
  intros H. repeat case_match; simplify_eq; eauto.
Qed.

(** C4. For a window whose screen, line buffer and history buffer can be
    reached and whose line buffer renders as [live]: when the history
    renders as [history], [get_terminal_text] returns [history], then one
    line feed exactly when [history] is not empty, then [live]; with an
    empty (or absent) history it returns [live] alone, with no leading
    line feed. *)
Theorem terminal_text_layout
    (st : State) (m : gmap Z Window) (k : Z) (w : Window) (screen : Screen)
    (linebuf : LineBuf) (historybuf : HistoryBuf) (live : string) :
  registry st = Some m -> m !! k = Some w ->
  window_screen w = Some screen ->
  screen_linebuf screen = Some linebuf ->
  screen_historybuf screen = Some historybuf ->
  linebuf_str linebuf = Returns live ->
  (forall history : string,
      historybuf_as_text historybuf = Returns (as_text_str history) ->
      get_terminal_text [PyLong k] st
      = (Some (PyUnicode (history ++ separator history ++ live)), st)
      /\ (history = "" ->
          get_terminal_text [PyLong k] st = (Some (PyUnicode live), st))
      /\ (history <> "" ->
          get_terminal_text [PyLong k] st
          = (Some (PyUnicode (history ++ LF ++ live)), st)))
  /\ (historybuf_as_text historybuf = Returns as_text_none ->
      get_terminal_text [PyLong k] st = (Some (PyUnicode live), st)).
Proof.
  intros Hr Hk Hscr Hlb Hhb Hlive.
  assert (Hrun : forall r,
             historybuf_as_text historybuf = Returns r ->
             get_terminal_text [PyLong k] st
             = (Some (PyUnicode
                        match r with
                        | as_text_str h => h ++ separator h ++ live
                        | as_text_none => live
                        end), st)).
  { intros r Hr'. unfold get_terminal_text. simpl PyArg_ParseTuple_O. run_ret.
    run_with (get_window_from_id_found st m k w Hr Hk).
    run_with (get_screen_from_window_found st k w screen Hscr).
    rewrite Hlb, Hhb. simpl PyObject_GetAttrString. do 2 run_ret.
    rewrite Hr', Hlive. simpl PyObject_Call. do 2 run_ret.
    unfold ret, PyUnicode_FromString, PyUnicode_Concat.
    rewrite PyUnicode_GET_LENGTH_positive.
    destruct r as [|[|c h]]; try reflexivity.
    cbv beta iota delta [separator]. now rewrite <- append_assoc. }
  split.
  - intros history Hh. pose proof (Hrun _ Hh) as H. cbv beta iota in H.
    split; [exact H|]. split.
    + intros ->. exact H.
    + intros Hne. destruct history; [congruence|exact H].
  - intros Hnone. exact (Hrun _ Hnone).
Qed.

(** C4 on the terminal of the scenario, whose history is not empty. *)
Lemma terminal_text_layout_witness :
  get_terminal_text [PyLong 1] Scenario.state80
  = (Some (PyUnicode ("$ make" ++ LF ++ "$ ls")), Scenario.state80).
Proof.
  refine (proj1 (proj1 (terminal_text_layout Scenario.state80
             {[ 1 := Scenario.window_of Scenario.screen80 ]} 1
             (Scenario.window_of Scenario.screen80) Scenario.screen80
             (mkLineBuf (Returns "$ ls"))
             (mkHistoryBuf (Returns (as_text_str "$ make"))
                           (Returns (PyLong 100)))
             "$ ls" _ _ _ _ _ _) "$ make" _)); reflexivity.
Defined.

(** A terminal with nothing in its history: the text is the live grid,
    with no leading line feed. *)
Example terminal_text_fresh :
  get_terminal_text [PyLong 1] Scenario.state_fresh
  = (Some (PyUnicode "$ ls"), Scenario.state_fresh).
Proof. reflexivity. Qed.

(** C5. Whenever [get_terminal_text] returns an object, that object is a
    [str], and [get_number_of_characters] on the same arguments returns
    the length of that string, a non-negative integer, and ends in the
    same state. *)
Theorem character_count_is_text_length
    (args : list PyObj) (st st' : State) (o : PyObj) :
  get_terminal_text args st = (Some o, st') ->
  exists text : string,
    o = PyUnicode text /\
    get_number_of_characters args st
    = (Some (PyLong (Z.of_nat (String.length text))), st') /\
    0 <= Z.of_nat (String.length text).
Proof.
  intros H. destruct (get_terminal_text_is_str _ _ _ _ H) as [text ->].
  exists text. split; [reflexivity|]. split; [|lia].
  unfold get_number_of_characters.
  destruct args as [|a [|b r]].
  - unfold get_terminal_text, bind in H. simpl in H. discriminate H.
  - simpl PyArg_ParseTuple_O. run_ret. now run_with H.
  - unfold get_terminal_text, bind in H. simpl in H. discriminate H.
Qed.

(** C5 on the terminal of the scenario: eleven characters. *)
Lemma character_count_is_text_length_witness :
  exists text : string,
    PyUnicode ("$ make" ++ LF ++ "$ ls") = PyUnicode text /\
    get_number_of_characters [PyLong 1] Scenario.state80
    = (Some (PyLong (Z.of_nat (String.length text))), Scenario.state80) /\
    0 <= Z.of_nat (String.length text).
Proof.
  apply (character_count_is_text_length [PyLong 1] Scenario.state80).
  reflexivity.
Defined.

(** ** Inserting dictated text *)

(** A [str] with an embedded NUL is no C string: the format ["s"] turns it
    down before anything is looked up or written. *)
Lemma insert_text_at_cursor_embedded_nul
    (wid : PyObj) (text : string) (st : State) :
  cstring text = false ->
  insert_text_at_cursor [wid; PyUnicode text] st
  = (None,
     set_error_indicator
       (Some (mkPyErr PyExc_ValueError "embedded null character")) st).
Proof.
  intros H. unfold insert_text_at_cursor, PyArg_ParseTuple_Os.
  now rewrite H.
Qed.

(** C8. For a window [w] of the registry, [insert_text_at_cursor] hands
    [process_voice_command text], and nothing else, to [write_to_child]:
    for a dictated C string [text], when the input pipeline takes the
    write the call returns [None] and the only change is that the child
    of [w] has received [process_voice_command text] after what it had,
    and when the pipeline refuses the write the call fails with
    [RuntimeError] and the host state is as before; whatever the outcome,
    the child has afterwards received either nothing new or exactly
    [process_voice_command text].  For "new line" into a fresh window the
    child has received the single byte LF. *)
Theorem insert_text_forwards_normalized
    (st : State) (m : gmap Z Window) (k : Z) (w : Window) (text : string) :
  registry st = Some m -> m !! k = Some w ->
  (cstring text = true -> window_write_error w = None ->
   insert_text_at_cursor [PyLong k; PyUnicode text] st
   = (Some Py_None, with_window k (deliver (process_voice_command text) w) st)
   /\ child_input
        (snd (insert_text_at_cursor [PyLong k; PyUnicode text] st)) k
      = Some (window_child_input w ++ process_voice_command text))
  /\ (cstring text = true ->
      forall e : PyErr,
        window_write_error w = Some e ->
        insert_text_at_cursor [PyLong k; PyUnicode text] st
        = (None,
           set_error_indicator
             (Some (mkPyErr PyExc_RuntimeError
                      "Failed to write text to terminal")) st))
  /\ (child_input
        (snd (insert_text_at_cursor [PyLong k; PyUnicode text] st)) k
      = Some (window_child_input w)
      \/ child_input
           (snd (insert_text_at_cursor [PyLong k; PyUnicode text] st)) k
         = Some (window_child_input w ++ process_voice_command text))
  /\ child_input
       (snd (insert_text_at_cursor [PyLong 1; PyUnicode "new line"]
               Scenario.state80)) 1
     = Some LF.
Proof.
  intros Hr Hk.
  assert (Hbefore : forall e,
             child_input (set_error_indicator e st) k
             = Some (window_child_input w)).
  { intros e. unfold child_input, registry, set_error_indicator. simpl.
    fold (registry st). now rewrite Hr, Hk. }
  assert (Hparse : cstring text = true -> forall st0,
             PyArg_ParseTuple_Os [PyLong k; PyUnicode text] st0
             = (Some (PyLong k, text), st0)).
  { intros Hc st0. simpl. now rewrite Hc. }
  assert (Hok : cstring text = true -> window_write_error w = None ->
                insert_text_at_cursor [PyLong k; PyUnicode text] st
                = (Some Py_None,
                   with_window k (deliver (process_voice_command text) w) st)).
  { intros Hc Hnone. unfold insert_text_at_cursor. run_with (Hparse Hc st).
    run_with (get_window_from_id_found st m k w Hr Hk).
    unfold write_to_child. rewrite Hnone.
    unfold bind at 1. unfold bind at 1.
    now rewrite (update_window_found st m k w Hr Hk). }
  assert (Hrefused : cstring text = true -> forall e,
                window_write_error w = Some e ->
                insert_text_at_cursor [PyLong k; PyUnicode text] st
                = (None,
                   set_error_indicator
                     (Some (mkPyErr PyExc_RuntimeError
                              "Failed to write text to terminal")) st)).
  { intros Hc e He. unfold insert_text_at_cursor. run_with (Hparse Hc st).
    run_with (get_window_from_id_found st m k w Hr Hk).
    unfold write_to_child. now rewrite He. }
  split; [|split; [exact Hrefused|split; [|reflexivity]]].
  - intros Hc Hnone. split; [now apply Hok|]. rewrite (Hok Hc Hnone).
    simpl snd. now rewrite (child_input_with_window st m k Hr).
  - destruct (cstring text) eqn:Hc.
    + destruct (window_write_error w) as [e|] eqn:He.
      * left. rewrite (Hrefused eq_refl e eq_refl). apply Hbefore.
      * right. rewrite (Hok eq_refl eq_refl). simpl snd.
        now rewrite (child_input_with_window st m k Hr).
    + left. rewrite (insert_text_at_cursor_embedded_nul _ _ _ Hc).
      apply Hbefore.
Qed.

(** C8 for the phrase "new line" dictated into the terminal of the
    scenario. *)
Lemma insert_text_forwards_normalized_witness :
  child_input
    (snd (insert_text_at_cursor [PyLong 1; PyUnicode "new line"]
            Scenario.state80)) 1
  = Some ("" ++ process_voice_command "new line").
Proof.
  refine (proj2 (proj1 (insert_text_forwards_normalized Scenario.state80
             {[ 1 := Scenario.window_of Scenario.screen80 ]} 1
             (Scenario.window_of Scenario.screen80) "new line" _ _) _ _));
    reflexivity.
Defined.

(** ** Setting the cursor *)

Lemma set_cursor_position_frame (args : list PyObj) (st : State) :
  global_state_boss (snd (set_cursor_position args st)) = global_state_boss st.
Proof.
  unfold set_cursor_position.
  destruct args as [|a [|b r]]; try reflexivity.
  destruct b as [|p|s|items], r as [|c r]; try reflexivity.
  unfold PyArg_ParseTuple_Oi, bind.
  destruct (negb (fits_longb p)); [reflexivity|].
  destruct (INT_MAX <? p); [reflexivity|].
  destruct (p <? INT_MIN); reflexivity.
Qed.

(** C9, as the code has it.  [set_cursor_position] parses its position
    with the format ["i"]: for every window identifier, known to the
    registry or not, and every integer position that fits a C [int], it
    returns [None] and leaves the whole state as it was; any other
    position is turned down by the parsing of the arguments (NULL is
    returned); and for any arguments at all the host state (registry,
    windows, their text and cursor) stays as it was. *)
Theorem set_cursor_position_noop :
  (forall (wid : PyObj) (position : Z) (st : State),
      INT_MIN <= position <= INT_MAX ->
      set_cursor_position [wid; PyLong position] st = (Some Py_None, st))
  /\ (forall (wid position : PyObj) (st : State),
         (forall p : Z, position = PyLong p -> ~ INT_MIN <= p <= INT_MAX) ->
         fst (set_cursor_position [wid; position] st) = None)
  /\ (forall (args : list PyObj) (st : State),
         global_state_boss (snd (set_cursor_position args st))
         = global_state_boss st).
Proof.
  split; [|split; [|exact set_cursor_position_frame]].
  - intros wid position st H.
    unfold set_cursor_position, PyArg_ParseTuple_Oi.
    assert (Hl : fits_longb position = true) by (apply fits_longb_true; fits).
    rewrite Hl. simpl negb. cbv iota.
    destruct (Z.ltb_spec INT_MAX position); [lia|].
    destruct (Z.ltb_spec position INT_MIN); [lia|]. reflexivity.
  - intros wid position st H.
    destruct position as [|p|s|items]; try reflexivity.
    specialize (H p eq_refl).
    unfold set_cursor_position, PyArg_ParseTuple_Oi, bind.
    destruct (negb (fits_longb p)); [reflexivity|].
    destruct (Z.ltb_spec INT_MAX p); [reflexivity|].
    destruct (Z.ltb_spec p INT_MIN); [reflexivity|]. lia.
Qed.

(** C9 for the identifier 7, which no window has, and position 42. *)
Lemma set_cursor_position_noop_witness :
  set_cursor_position [PyLong 7; PyLong 42] Scenario.state80
  = (Some Py_None, Scenario.state80).
Proof.
  apply (proj1 set_cursor_position_noop (PyLong 7) 42 Scenario.state80).
  unfold INT_MIN, INT_MAX. lia.
Defined.

(** C9 as stated fails: the position 2^31 does not fit a C [int], and
    [set_cursor_position] raises [OverflowError] instead of returning. *)
Lemma set_cursor_position_rejects_large_position :
  set_cursor_position [PyLong 1; PyLong (2 ^ 31)] Scenario.state80
  = (None,
     set_error_indicator
       (Some (mkPyErr PyExc_OverflowError
                "signed integer is greater than maximum"))
       Scenario.state80)
  /\ ~ (forall (wid position : PyObj) (st : State),
           set_cursor_position [wid; position] st = (Some Py_None, st)).
Proof.
  split; [reflexivity|].
  intros H. specialize (H (PyLong 1) (PyLong (2 ^ 31)) Scenario.state80).
  discriminate H.
Qed.

(** * Further properties of the bridge *)

(** ** The normaliser never emits a command word *)

(** X1. No dictated text makes [process_voice_command] return one of the
    spoken phrases: the words "tab", "enter", ... themselves can never be
    passed on. *)
Theorem process_voice_command_never_a_phrase (text : string) :
  ~ In (process_voice_command text) voice_commands.
Proof.
  unfold process_voice_command.
  destruct ((strcmp text "new line" =? 0) || (strcmp text "newline" =? 0))
    eqn:E1; [simpl; intuition discriminate|].
  destruct (strcmp text "tab" =? 0) eqn:E2; [simpl; intuition discriminate|].
  destruct (strcmp text "escape" =? 0) eqn:E3;
    [simpl; intuition discriminate|].
  destruct (strcmp text "space" =? 0) eqn:E4;
    [simpl; intuition discriminate|].
  destruct (strcmp text "backspace" =? 0) eqn:E5;
    [simpl; intuition discriminate|].
  destruct (strcmp text "delete" =? 0) eqn:E6;
    [simpl; intuition discriminate|].
  destruct ((strcmp text "enter" =? 0) || (strcmp text "return" =? 0))
    eqn:E7; [simpl; intuition discriminate|].
  simpl. intros H.
  repeat (destruct H as [H|H]; [subst text; discriminate|]). exact H.
Qed.

(** X2. [process_voice_command] hands a C string back for a C string, and
    its result is empty only for the empty text: a command never turns
    into an empty write. *)
Theorem process_voice_command_cstring (text : string) :
  (cstring text = true -> cstring (process_voice_command text) = true)
  /\ (process_voice_command text = "" <-> text = "").
Proof.
  split.
  - intros W. unfold process_voice_command.
    repeat match goal with
           | |- context [if ?c then _ else _] => destruct c
           end; try reflexivity; exact W.
  - split.
    + unfold process_voice_command.
      repeat match goal with
             | |- context [if ?c then _ else _] => destruct c
             end; try discriminate; auto.
    + intros ->. reflexivity.
Qed.

(** X2 at a dictated phrase. *)
Lemma process_voice_command_cstring_witness :
  cstring (process_voice_command "ls -la") = true.
Proof.
  apply (proj1 (process_voice_command_cstring "ls -la")). reflexivity.
Defined.

(** ** When the window cannot be resolved *)

Lemma get_window_from_id_no_boss (wid : PyObj) (st : State) :
  global_state_boss st = None ->
  get_window_from_id wid st
  = (None,
     set_error_indicator
       (Some (mkPyErr PyExc_RuntimeError "Boss object not available")) st).
Proof.
  intros H. unfold get_window_from_id, bind, read_global_state_boss.
  now rewrite H.
Qed.

Lemma get_window_from_id_no_registry (wid : PyObj) (st : State) (boss : Boss) :
  global_state_boss st = Some boss -> boss_window_id_map boss = None ->
  get_window_from_id wid st
  = (None,
     set_error_indicator
       (Some (mkPyErr PyExc_RuntimeError
                "Could not get window_id_map from Boss")) st).
Proof.
  intros Hb Hm. unfold get_window_from_id, bind, read_global_state_boss.
  now rewrite Hb, Hm.
Qed.

(** Every entry point that resolves the window hands the failure of
    [get_window_from_id] on as it is. *)
Lemma lookup_failure_propagates (wid : PyObj) (text : string) (st st' : State) :
  get_window_from_id wid st = (None, st') ->
  get_terminal_text [wid] st = (None, st') /\
  get_cursor_text_position [wid] st = (None, st') /\
  get_number_of_characters [wid] st = (None, st') /\
  get_visible_character_range [wid] st = (None, st') /\
  (cstring text = true ->
   insert_text_at_cursor [wid; PyUnicode text] st = (None, st')).
Proof.
  intros Hw.
  assert (Htext : get_terminal_text [wid] st = (None, st')).
  { unfold get_terminal_text. simpl PyArg_ParseTuple_O. run_ret.
    now run_with Hw. }
  repeat split.
  - exact Htext.
  - unfold get_cursor_text_position. simpl PyArg_ParseTuple_O. run_ret.
    now run_with Hw.
  - unfold get_number_of_characters. simpl PyArg_ParseTuple_O. run_ret.
    now run_with Htext.
  - unfold get_visible_character_range. simpl PyArg_ParseTuple_O. run_ret.
    now run_with Hw.
  - intros Hc. unfold insert_text_at_cursor.
    assert (Hparse : PyArg_ParseTuple_Os [wid; PyUnicode text] st
                     = (Some (wid, text), st)).
    { simpl. now rewrite Hc. }
    run_with Hparse. simpl fst. now run_with Hw.
Qed.

(** X3. Without a boss object, or with a boss whose [window_id_map]
    cannot be read, the four queries and [insert_text_at_cursor] all fail
    with [RuntimeError] ("Boss object not available", respectively "Could
    not get window_id_map from Boss") for every window identifier, and the
    host state is what it was. *)
Theorem no_registry_fails (wid : PyObj) (text : string) (st : State) :
  cstring text = true ->
  (global_state_boss st = None \/
   exists boss, global_state_boss st = Some boss /\
                boss_window_id_map boss = None) ->
  let msg := match global_state_boss st with
             | None => "Boss object not available"
             | Some _ => "Could not get window_id_map from Boss"
             end in
  let st' := set_error_indicator (Some (mkPyErr PyExc_RuntimeError msg)) st in
  get_terminal_text [wid] st = (None, st') /\
  get_cursor_text_position [wid] st = (None, st') /\
  get_number_of_characters [wid] st = (None, st') /\
  get_visible_character_range [wid] st = (None, st') /\
  insert_text_at_cursor [wid; PyUnicode text] st = (None, st') /\
  global_state_boss st' = global_state_boss st.
Proof.
  intros Hc H msg st'.
  assert (Hw : get_window_from_id wid st = (None, st')).
  { subst st' msg. destruct H as [H|(boss & Hb & Hm)].
    - rewrite H. now apply get_window_from_id_no_boss.
    - rewrite Hb. now apply (get_window_from_id_no_registry wid st boss). }
  destruct (lookup_failure_propagates wid text st st' Hw)
    as (H1 & H2 & H3 & H4 & H5).
  repeat split; auto.
Qed.

(** X3 before the boss exists. *)
Lemma no_registry_fails_witness :
  get_cursor_text_position [PyLong 1] Cases.state_no_boss
  = (None,
     set_error_indicator
       (Some (mkPyErr PyExc_RuntimeError "Boss object not available"))
       Cases.state_no_boss).
Proof.
  refine (proj1 (proj2 (no_registry_fails (PyLong 1) "ls" Cases.state_no_boss
                          _ _))).
  - reflexivity.
  - left. reflexivity.
Defined.

(** X4. For a window of the registry that has no screen, the three queries
    that read the screen, and the character count with them, fail with the
    [RuntimeError] "Could not get screen from Window"; the host state is
    what it was. *)
Theorem no_screen_fails (st : State) (m : gmap Z Window) (k : Z) (w : Window) :
  registry st = Some m -> m !! k = Some w -> window_screen w = None ->
  let st' := set_error_indicator
               (Some (mkPyErr PyExc_RuntimeError
                        "Could not get screen from Window")) st in
  get_terminal_text [PyLong k] st = (None, st') /\
  get_cursor_text_position [PyLong k] st = (None, st') /\
  get_number_of_characters [PyLong k] st = (None, st') /\
  get_visible_character_range [PyLong k] st = (None, st').
Proof.
  intros Hr Hk Hs st'.
  pose proof (get_window_from_id_found st m k w Hr Hk) as Hw.
  assert (Hscr : get_screen_from_window (window_ptr k w) st = (None, st')).
  { unfold get_screen_from_window. now rewrite Hs. }
  assert (Htext : get_terminal_text [PyLong k] st = (None, st')).
  { unfold get_terminal_text. simpl PyArg_ParseTuple_O. run_ret.
    run_with Hw. now run_with Hscr. }
  repeat split.
  - exact Htext.
  - unfold get_cursor_text_position. simpl PyArg_ParseTuple_O. run_ret.
    run_with Hw. now run_with Hscr.
  - unfold get_number_of_characters. simpl PyArg_ParseTuple_O. run_ret.
    now run_with Htext.
  - unfold get_visible_character_range. simpl PyArg_ParseTuple_O. run_ret.
    run_with Hw. now run_with Hscr.
Qed.

(** X4 on a registered window without a screen. *)
Lemma no_screen_fails_witness :
  get_visible_character_range [PyLong 1] Cases.state_no_screen
  = (None,
     set_error_indicator
       (Some (mkPyErr PyExc_RuntimeError "Could not get screen from Window"))
       Cases.state_no_screen).
Proof.
  refine (proj2 (proj2 (proj2 (no_screen_fails Cases.state_no_screen
             {[ 1 := mkWindow None None "" ]} 1 (mkWindow None None "")
             _ _ _)))); reflexivity.
Defined.

(** ** The queries only read *)

Section ReadOnly.

Lemma read_only_ret {A : Type} (a : A) : read_only (ret a).
Proof. intros st. reflexivity. Qed.

Lemma read_only_bind {A B : Type} (m : Py A) (k : A -> Py B) :
  read_only m -> (forall a, read_only (k a)) -> read_only (bind m k).
Proof.
  intros Hm Hk st. unfold bind. specialize (Hm st).
  destruct (m st) as [a st1]. simpl in Hm. rewrite (Hk a st1). exact Hm.
Qed.

Lemma read_only_PyErr_SetString (t : PyExc) (msg : string) :
  read_only (PyErr_SetString t msg).
Proof. intros st. reflexivity. Qed.

Lemma read_only_PyErr_Restore (e : PyErr) : read_only (PyErr_Restore e).
Proof. intros st. reflexivity. Qed.

Lemma read_only_fail_with {A : Type} (t : PyExc) (msg : string) :
  read_only (@fail_with A t msg).
Proof. intros st. reflexivity. Qed.

Lemma read_only_PyObject_GetAttrString {A : Type} (slot : option A) (name : string) :
  read_only (PyObject_GetAttrString slot name).
Proof. destruct slot; intros st; reflexivity. Qed.

Lemma read_only_PyObject_Call {A : Type} (r : PyCall A) :
  read_only (PyObject_Call r).
Proof. destruct r; intros st; reflexivity. Qed.

Lemma read_only_PyLong_AsLong (o : PyObj) : read_only (PyLong_AsLong o).
Proof.
  destruct o as [|z|s|items]; try (intros st; reflexivity).
  intros st. simpl. now destruct (fits_longb z).
Qed.

Lemma read_only_PyArg_ParseTuple_O (args : list PyObj) :
  read_only (PyArg_ParseTuple_O args).
Proof. destruct args as [|a [|b r]]; intros st; reflexivity. Qed.

Lemma read_only_read_global_state_boss : read_only read_global_state_boss.
Proof. intros st. reflexivity. Qed.

End ReadOnly.

Create HintDb read_only.
#[local] Hint Resolve read_only_ret read_only_PyErr_SetString
  read_only_PyErr_Restore read_only_fail_with
  read_only_PyObject_GetAttrString read_only_PyObject_Call
  read_only_PyLong_AsLong read_only_PyArg_ParseTuple_O
  read_only_read_global_state_boss : read_only.

(** Goes through a computation bind by bind and branch by branch. *)
Ltac read_only_steps :=
  repeat first
    [ progress auto with read_only
    | apply read_only_bind; [auto with read_only | intros ]
    | match goal with
      | |- read_only (match ?x with _ => _ end) => destruct x
      | |- read_only (if ?c then _ else _) => destruct c
      | |- read_only (let _ := _ in _) => cbv zeta
      end ].

Lemma read_only_get_window_from_id (wid : PyObj) :
  read_only (get_window_from_id wid).
Proof. unfold get_window_from_id. read_only_steps. Qed.

Lemma read_only_get_screen_from_window (window : WindowPtr) :
  read_only (get_screen_from_window window).
Proof. unfold get_screen_from_window. read_only_steps. Qed.

Lemma read_only_read_scrolled_by (screen : Screen) :
  read_only (read_scrolled_by screen).
Proof. unfold read_scrolled_by. read_only_steps. Qed.

Lemma read_only_read_history_lines (screen : Screen) :
  read_only (read_history_lines screen).
Proof. unfold read_history_lines. read_only_steps. Qed.

#[local] Hint Resolve read_only_get_window_from_id
  read_only_get_screen_from_window read_only_read_scrolled_by
  read_only_read_history_lines : read_only.

Lemma read_only_get_terminal_text (args : list PyObj) :
  read_only (get_terminal_text args).
Proof. unfold get_terminal_text. read_only_steps. Qed.

#[local] Hint Resolve read_only_get_terminal_text : read_only.

(** X5. The four queries only read: for any arguments and in any state,
    whether they return or fail, the boss, its registry and every window
    (screen, child input) are afterwards what they were. *)
Theorem queries_read_only (args : list PyObj) :
  read_only (get_terminal_text args) /\
  read_only (get_cursor_text_position args) /\
  read_only (get_number_of_characters args) /\
  read_only (get_visible_character_range args).
Proof.
  repeat split.
  - apply read_only_get_terminal_text.
  - unfold get_cursor_text_position. read_only_steps.
  - unfold get_number_of_characters. read_only_steps.
  - unfold get_visible_character_range. read_only_steps.
Qed.

(** ** The terminal text when a buffer is missing or cannot render *)

Section TextOfScreen.

Context (st : State) (k : Z) (screen : Screen).
Hypothesis Hshows : shows st k screen.

(** Runs [get_terminal_text] up to the screen. *)
Ltac text_to_screen :=
  let m := fresh "m" in
  let w := fresh "w" in
  let Hr := fresh "Hr" in
  let Hk := fresh "Hk" in
  let Hscr := fresh "Hscr" in
  destruct Hshows as (m & w & Hr & Hk & Hscr);
  unfold get_terminal_text; simpl PyArg_ParseTuple_O; run_ret;
  run_with (get_window_from_id_found st m k w Hr Hk);
  run_with (get_screen_from_window_found st k w screen Hscr).

Lemma get_terminal_text_no_linebuf :
  screen_linebuf screen = None ->
  get_terminal_text [PyLong k] st
  = (None,
     set_error_indicator
       (Some (mkPyErr PyExc_RuntimeError "Could not get linebuf from Screen"))
       st).
Proof. intros H. text_to_screen. now rewrite H. Qed.

Lemma get_terminal_text_no_historybuf (linebuf : LineBuf) :
  screen_linebuf screen = Some linebuf ->
  screen_historybuf screen = None ->
  get_terminal_text [PyLong k] st
  = (None,
     set_error_indicator
       (Some (mkPyErr PyExc_RuntimeError
                "Could not get historybuf from Screen")) st).
Proof. intros Hl Hh. text_to_screen. now rewrite Hl, Hh. Qed.

(** The text for every outcome of the two renderings. *)
Lemma get_terminal_text_rendered (linebuf : LineBuf) (historybuf : HistoryBuf) :
  screen_linebuf screen = Some linebuf ->
  screen_historybuf screen = Some historybuf ->
  get_terminal_text [PyLong k] st
  = match historybuf_as_text historybuf, linebuf_str linebuf with
    | Returns (as_text_str h), Returns live =>
        (Some (PyUnicode (h ++ separator h ++ live)), st)
    | Returns as_text_none, Returns live => (Some (PyUnicode live), st)
    | Raises e, Returns live =>
        (Some (PyUnicode live), set_error_indicator (Some e) st)
    | Returns (as_text_str h), Raises e =>
        (Some (PyUnicode h), set_error_indicator (Some e) st)
    | Returns as_text_none, Raises e =>
        (Some (PyUnicode ""), set_error_indicator (Some e) st)
    | Raises _, Raises e =>
        (Some (PyUnicode ""), set_error_indicator (Some e) st)
    end.
Proof.
  intros Hl Hh. text_to_screen. rewrite Hl, Hh.
  simpl PyObject_GetAttrString. do 2 run_ret.
  destruct (historybuf_as_text historybuf) as [e1|[|h]],
           (linebuf_str linebuf) as [e2|live]; try reflexivity.
  simpl PyObject_Call. do 2 run_ret.
  unfold ret, PyUnicode_FromString, PyUnicode_Concat.
  rewrite PyUnicode_GET_LENGTH_positive.
  destruct h as [|c h]; [reflexivity|].
  cbv beta iota delta [separator]. now rewrite <- append_assoc.
Qed.

End TextOfScreen.

(** X6. For a window that shows a screen, [get_terminal_text] fails with
    [RuntimeError] when the screen has no line buffer ("Could not get
    linebuf from Screen", whatever the history buffer is) and, with a line
    buffer, when it has no history buffer ("Could not get historybuf from
    Screen"); no text is returned and nothing else changes. *)
Theorem terminal_text_needs_both_buffers (st : State) (k : Z) (screen : Screen) :
  shows st k screen ->
  (screen_linebuf screen = None ->
   get_terminal_text [PyLong k] st
   = (None,
      set_error_indicator
        (Some (mkPyErr PyExc_RuntimeError
                 "Could not get linebuf from Screen")) st))
  /\ (forall linebuf : LineBuf,
         screen_linebuf screen = Some linebuf ->
         screen_historybuf screen = None ->
         get_terminal_text [PyLong k] st
         = (None,
            set_error_indicator
              (Some (mkPyErr PyExc_RuntimeError
                       "Could not get historybuf from Screen")) st)).
Proof.
  intros Hs. split.
  - now apply get_terminal_text_no_linebuf.
  - intros linebuf. now apply get_terminal_text_no_historybuf.
Qed.

(** X6 on a screen that has lost its buffers. *)
Lemma terminal_text_needs_both_buffers_witness :
  get_terminal_text [PyLong 1] (Scenario.state_of Cases.bare)
  = (None,
     set_error_indicator
       (Some (mkPyErr PyExc_RuntimeError "Could not get linebuf from Screen"))
       (Scenario.state_of Cases.bare)).
Proof.
  refine (proj1 (terminal_text_needs_both_buffers
                   (Scenario.state_of Cases.bare) 1 Cases.bare _) _).
  - exists {[ 1 := Scenario.window_of Cases.bare ]},
           (Scenario.window_of Cases.bare).
    repeat split; reflexivity.
  - reflexivity.
Defined.

(** X7. A rendering that raises does not make [get_terminal_text] fail.
    When [historybuf.as_text()] raises, the text returned is the live text
    alone; when [str(linebuf)] raises, it is the history text alone,
    without separator; in both cases the object is returned while the
    exception of the failed call is still set in the error indicator. *)
Theorem terminal_text_swallows_render_errors
    (st : State) (k : Z) (screen : Screen)
    (linebuf : LineBuf) (historybuf : HistoryBuf) (e : PyErr) :
  shows st k screen ->
  screen_linebuf screen = Some linebuf ->
  screen_historybuf screen = Some historybuf ->
  (forall live : string,
      historybuf_as_text historybuf = Raises e ->
      linebuf_str linebuf = Returns live ->
      get_terminal_text [PyLong k] st
      = (Some (PyUnicode live), set_error_indicator (Some e) st))
  /\ (forall history : string,
         historybuf_as_text historybuf = Returns (as_text_str history) ->
         linebuf_str linebuf = Raises e ->
         get_terminal_text [PyLong k] st
         = (Some (PyUnicode history), set_error_indicator (Some e) st)).
Proof.
  intros Hs Hl Hh.
  pose proof (get_terminal_text_rendered st k screen Hs linebuf historybuf
                Hl Hh) as H.
  split.
  - intros live Ha Hlive. now rewrite Ha, Hlive in H.
  - intros history Ha Hlive. now rewrite Ha, Hlive in H.
Qed.

(** X7 on a terminal whose history cannot render. *)
Lemma terminal_text_swallows_render_errors_witness :
  get_terminal_text [PyLong 1] (Scenario.state_of Cases.history_raises)
  = (Some (PyUnicode "$ ls"),
     set_error_indicator (Some Cases.io_error)
       (Scenario.state_of Cases.history_raises)).
Proof.
  refine (proj1 (terminal_text_swallows_render_errors
                   (Scenario.state_of Cases.history_raises) 1
                   Cases.history_raises
                   (mkLineBuf (Returns "$ ls"))
                   (mkHistoryBuf (Raises Cases.io_error) (Returns (PyLong 100)))
                   Cases.io_error _ _ _) "$ ls" _ _); try reflexivity.
  exists {[ 1 := Scenario.window_of Cases.history_raises ]},
         (Scenario.window_of Cases.history_raises).
  repeat split; reflexivity.
Defined.

(** ** Counting characters *)

Lemma length_append (a b : string) :
  String.length (a ++ b) = (String.length a + String.length b)%nat.
Proof.
  induction a as [|c a IH]; [reflexivity|].
  change (S (String.length (a ++ b))
          = S (String.length a + String.length b)).
  now f_equal.
Qed.

(** X8. [get_number_of_characters] mirrors [get_terminal_text] on every
    argument tuple and in every state: it ends in the same state, and it
    fails exactly when [get_terminal_text] fails. *)
Theorem character_count_mirrors_text (args : list PyObj) (st : State) :
  snd (get_number_of_characters args st) = snd (get_terminal_text args st)
  /\ (fst (get_number_of_characters args st) = None
      <-> fst (get_terminal_text args st) = None).
Proof.
  unfold get_number_of_characters.
  destruct args as [|a [|b r]].
  - split; [reflexivity|]. split; reflexivity.
  - simpl PyArg_ParseTuple_O. run_ret. unfold bind.
    destruct (get_terminal_text [a] st) as [[o|] st'].
    + split; [reflexivity|]. split; discriminate.
    + split; [reflexivity|]. split; reflexivity.
  - split; [reflexivity|]. split; reflexivity.
Qed.

(** X9. For a window whose two buffers render, the character count is the
    length of the history text, plus one for the separating line feed
    when the history text is not empty, plus the length of the live
    text. *)
Theorem character_count_sum
    (st : State) (k : Z) (screen : Screen)
    (linebuf : LineBuf) (historybuf : HistoryBuf) (history live : string) :
  shows st k screen ->
  screen_linebuf screen = Some linebuf ->
  screen_historybuf screen = Some historybuf ->
  historybuf_as_text historybuf = Returns (as_text_str history) ->
  linebuf_str linebuf = Returns live ->
  get_number_of_characters [PyLong k] st
  = (Some (PyLong (Z.of_nat (String.length history)
                   + (if String.eqb history "" then 0 else 1)
                   + Z.of_nat (String.length live))), st).
Proof.
  intros Hs Hl Hh Ha Hlive.
  pose proof (get_terminal_text_rendered st k screen Hs linebuf historybuf
                Hl Hh) as H.
  rewrite Ha, Hlive in H.
  unfold get_number_of_characters. simpl PyArg_ParseTuple_O. run_ret.
  run_with H. unfold ret, PyLong_FromSsize_t, PyUnicode_GET_LENGTH.
  rewrite !length_append. do 3 f_equal.
  destruct history as [|c h]; simpl; lia.
Qed.

(** X9 on the terminal of the scenario: 6 + 1 + 4 characters. *)
Lemma character_count_sum_witness :
  get_number_of_characters [PyLong 1] Scenario.state80
  = (Some (PyLong (Z.of_nat (String.length "$ make")
                   + (if String.eqb "$ make" "" then 0 else 1)
                   + Z.of_nat (String.length "$ ls"))), Scenario.state80).
Proof.
  apply (character_count_sum Scenario.state80 1 Scenario.screen80
           (mkLineBuf (Returns "$ ls"))
           (mkHistoryBuf (Returns (as_text_str "$ make"))
                         (Returns (PyLong 100)))); try reflexivity.
  exists {[ 1 := Scenario.window_of Scenario.screen80 ]},
         (Scenario.window_of Scenario.screen80).
  repeat split; reflexivity.
Defined.

(** ** The cursor offset and the visible range on a damaged screen *)

Section OnDamagedScreen.

Context (st : State) (k : Z) (screen : Screen).
Hypothesis Hshows : shows st k screen.

Ltac cursor_to_screen :=
  let m := fresh "m" in
  let w := fresh "w" in
  let Hr := fresh "Hr" in
  let Hk := fresh "Hk" in
  let Hscr := fresh "Hscr" in
  destruct Hshows as (m & w & Hr & Hk & Hscr);
  unfold get_cursor_text_position; simpl PyArg_ParseTuple_O; run_ret;
  run_with (get_window_from_id_found st m k w Hr Hk);
  run_with (get_screen_from_window_found st k w screen Hscr).

Ltac range_to_screen :=
  let m := fresh "m" in
  let w := fresh "w" in
  let Hr := fresh "Hr" in
  let Hk := fresh "Hk" in
  let Hscr := fresh "Hscr" in
  destruct Hshows as (m & w & Hr & Hk & Hscr);
  unfold get_visible_character_range; simpl PyArg_ParseTuple_O; run_ret;
  run_with (get_window_from_id_found st m k w Hr Hk);
  run_with (get_screen_from_window_found st k w screen Hscr).

Lemma get_cursor_text_position_no_cursor :
  screen_cursor screen = None ->
  get_cursor_text_position [PyLong k] st
  = (None,
     set_error_indicator
       (Some (mkPyErr PyExc_RuntimeError "Could not get cursor from Screen"))
       st).
Proof. intros H. cursor_to_screen. now rewrite H. Qed.

Lemma get_cursor_text_position_no_coordinate (cursor : Cursor) :
  screen_cursor screen = Some cursor ->
  cursor_x cursor = None \/ cursor_y cursor = None ->
  get_cursor_text_position [PyLong k] st
  = (None,
     set_error_indicator
       (Some (mkPyErr PyExc_RuntimeError "Could not get cursor position")) st).
Proof.
  intros Hc H. cursor_to_screen. rewrite Hc.
  simpl PyObject_GetAttrString. run_ret.
  destruct (cursor_x cursor) as [xo|], (cursor_y cursor) as [yo|];
    try reflexivity.
  destruct H; discriminate.
Qed.

Lemma get_cursor_text_position_no_columns (cursor : Cursor) (xo yo : PyObj) :
  screen_cursor screen = Some cursor ->
  cursor_x cursor = Some xo -> cursor_y cursor = Some yo ->
  screen_columns screen = None ->
  get_cursor_text_position [PyLong k] st
  = (None,
     set_error_indicator
       (Some (mkPyErr PyExc_RuntimeError "Could not get columns from Screen"))
       st).
Proof.
  intros Hc Hx Hy Hcol. cursor_to_screen. rewrite Hc.
  simpl PyObject_GetAttrString. run_ret. rewrite Hx, Hy, Hcol.
  simpl PyObject_GetAttrString. do 2 run_ret.
  unfold bind.
  destruct xo as [|x|sx|ix], yo as [|y|sy|iy]; simpl;
    repeat match goal with
           | |- context [fits_longb ?z] => destruct (fits_longb z)
           end; reflexivity.
Qed.

Lemma get_visible_character_range_no_dimension :
  screen_columns screen = None \/ screen_lines screen = None ->
  get_visible_character_range [PyLong k] st
  = (None,
     set_error_indicator
       (Some (mkPyErr PyExc_RuntimeError "Could not get screen dimensions"))
       st).
Proof.
  intros H. range_to_screen.
  destruct (screen_columns screen) as [co|], (screen_lines screen) as [lo|];
    try reflexivity.
  destruct H; discriminate.
Qed.

Lemma read_history_lines_unreadable (e : PyErr) (st0 : State) :
  history_unreadable screen e ->
  read_history_lines screen st0 = (0, set_error_indicator (Some e) st0).
Proof.
  intros [(Hh & ->)|(hb & Hh & Hlen)]; unfold read_history_lines; rewrite Hh.
  - reflexivity.
  - simpl PyObject_GetAttrString. run_ret. now rewrite Hlen.
Qed.

Lemma get_cursor_text_position_unreadable_history
    (e : PyErr) (columns scrolled_by x y : Z) :
  history_unreadable screen e ->
  cursor_at screen x y ->
  screen_columns screen = Some (PyLong columns) ->
  screen_scrolled_by screen = Some (PyLong scrolled_by) ->
  fits_long x -> fits_long y -> fits_long columns -> fits_long scrolled_by ->
  offset_no_overflow columns 0 scrolled_by x y ->
  get_cursor_text_position [PyLong k] st
  = (Some (PyLong ((0 - scrolled_by + y) * columns + x)),
     set_error_indicator (Some e) st).
Proof.
  intros Hu (cursor & Hc & Hx & Hy) Hcol Hs Fx Fy Fc Fs (O1 & O2 & O3 & O4).
  cursor_to_screen.
  rewrite Hc. simpl PyObject_GetAttrString. run_ret.
  rewrite Hx, Hy. simpl PyObject_GetAttrString. do 2 run_ret.
  run_with (PyLong_AsLong_fits x st Fx).
  run_with (PyLong_AsLong_fits y st Fy).
  rewrite Hcol. simpl PyObject_GetAttrString. run_ret.
  run_with (PyLong_AsLong_fits columns st Fc).
  assert (Hsb : read_scrolled_by screen st = (scrolled_by, st)).
  { unfold read_scrolled_by. rewrite Hs. simpl PyObject_GetAttrString.
    run_ret. now apply PyLong_AsLong_fits. }
  run_with Hsb.
  run_with (read_history_lines_unreadable e st Hu).
  unfold ret, PyLong_FromLong, long_add, long_mul, long_sub.
  now rewrite (wrap_long_fits _ O1), (wrap_long_fits _ O2),
              (wrap_long_fits _ O3), (wrap_long_fits _ O4).
Qed.

Lemma get_visible_character_range_unreadable_history
    (e : PyErr) (columns lines scrolled_by : Z) :
  history_unreadable screen e ->
  screen_columns screen = Some (PyLong columns) ->
  screen_lines screen = Some (PyLong lines) ->
  screen_scrolled_by screen = Some (PyLong scrolled_by) ->
  fits_long columns -> fits_long lines -> fits_long scrolled_by ->
  range_no_overflow columns lines 0 scrolled_by ->
  get_visible_character_range [PyLong k] st
  = (Some (PyTuple [PyLong (Z.max 0 ((0 - scrolled_by) * columns));
                    PyLong (lines * columns)]),
     set_error_indicator (Some e) st).
Proof.
  intros Hu Hcol Hl Hs Fc Fl Fs (O1 & O2 & O3).
  range_to_screen.
  rewrite Hcol, Hl. simpl PyObject_GetAttrString. do 2 run_ret.
  run_with (PyLong_AsLong_fits columns st Fc).
  run_with (PyLong_AsLong_fits lines st Fl).
  assert (Hsb : read_scrolled_by screen st = (scrolled_by, st)).
  { unfold read_scrolled_by. rewrite Hs. simpl PyObject_GetAttrString.
    run_ret. now apply PyLong_AsLong_fits. }
  run_with Hsb.
  run_with (read_history_lines_unreadable e st Hu).
  unfold ret, PyLong_FromLong, long_mul, long_sub.
  rewrite (wrap_long_fits _ O1), (wrap_long_fits _ O2), (wrap_long_fits _ O3).
  destruct (Z.ltb_spec ((0 - scrolled_by) * columns) 0);
    repeat f_equal; lia.
Qed.

End OnDamagedScreen.

(** X10. For a window that shows a screen, [get_cursor_text_position]
    fails with [RuntimeError] and returns no offset when the screen has no
    cursor ("Could not get cursor from Screen"), when the cursor lacks its
    x or its y ("Could not get cursor position"), and when the screen has
    no column count ("Could not get columns from Screen"); nothing else
    changes. *)
Theorem cursor_offset_needs_cursor_and_columns
    (st : State) (k : Z) (screen : Screen) :
  shows st k screen ->
  (screen_cursor screen = None ->
   get_cursor_text_position [PyLong k] st
   = (None,
      set_error_indicator
        (Some (mkPyErr PyExc_RuntimeError
                 "Could not get cursor from Screen")) st))
  /\ (forall cursor : Cursor,
         screen_cursor screen = Some cursor ->
         cursor_x cursor = None \/ cursor_y cursor = None ->
         get_cursor_text_position [PyLong k] st
         = (None,
            set_error_indicator
              (Some (mkPyErr PyExc_RuntimeError
                       "Could not get cursor position")) st))
  /\ (forall (cursor : Cursor) (xo yo : PyObj),
         screen_cursor screen = Some cursor ->
         cursor_x cursor = Some xo -> cursor_y cursor = Some yo ->
         screen_columns screen = None ->
         get_cursor_text_position [PyLong k] st
         = (None,
            set_error_indicator
              (Some (mkPyErr PyExc_RuntimeError
                       "Could not get columns from Screen")) st)).
Proof.
  intros Hs. split; [|split].
  - now apply (get_cursor_text_position_no_cursor st k screen).
  - intros cursor.
    now apply (get_cursor_text_position_no_coordinate st k screen).
  - intros cursor xo yo.
    now apply (get_cursor_text_position_no_columns st k screen).
Qed.

(** X10 on a screen without a cursor. *)
Lemma cursor_offset_needs_cursor_and_columns_witness :
  get_cursor_text_position [PyLong 1] (Scenario.state_of Cases.bare)
  = (None,
     set_error_indicator
       (Some (mkPyErr PyExc_RuntimeError "Could not get cursor from Screen"))
       (Scenario.state_of Cases.bare)).
Proof.
  refine (proj1 (cursor_offset_needs_cursor_and_columns
                   (Scenario.state_of Cases.bare) 1 Cases.bare _) _).
  - exists {[ 1 := Scenario.window_of Cases.bare ]},
           (Scenario.window_of Cases.bare).
    repeat split; reflexivity.
  - reflexivity.
Defined.

(** X11. For a window that shows a screen, [get_visible_character_range]
    fails with the [RuntimeError] "Could not get screen dimensions" and
    returns no range when the screen lacks its column count or its line
    count; nothing else changes. *)
Theorem visible_range_needs_dimensions
    (st : State) (k : Z) (screen : Screen) :
  shows st k screen ->
  screen_columns screen = None \/ screen_lines screen = None ->
  get_visible_character_range [PyLong k] st
  = (None,
     set_error_indicator
       (Some (mkPyErr PyExc_RuntimeError "Could not get screen dimensions"))
       st).
Proof.
  intros Hs H. now apply (get_visible_character_range_no_dimension st k screen).
Qed.

(** X11 on a screen without dimensions. *)
Lemma visible_range_needs_dimensions_witness :
  get_visible_character_range [PyLong 1] (Scenario.state_of Cases.bare)
  = (None,
     set_error_indicator
       (Some (mkPyErr PyExc_RuntimeError "Could not get screen dimensions"))
       (Scenario.state_of Cases.bare)).
Proof.
  apply (visible_range_needs_dimensions
           (Scenario.state_of Cases.bare) 1 Cases.bare).
  - exists {[ 1 := Scenario.window_of Cases.bare ]},
           (Scenario.window_of Cases.bare).
    repeat split; reflexivity.
  - left. reflexivity.
Defined.

(** X12. A history that cannot be counted (no [historybuf] attribute, or a
    [__len__] that raises) is not an error for the two range functions:
    they count it as 0 lines, so the offset is
    [(0 - scrolled_by + y) * columns + x] and the range starts at
    [max 0 ((0 - scrolled_by) * columns)], and they return their result
    with the exception of the failed call still set. *)
Theorem unreadable_history_counts_as_empty
    (st : State) (k : Z) (screen : Screen) (e : PyErr)
    (columns lines scrolled_by x y : Z) :
  shows st k screen ->
  history_unreadable screen e ->
  cursor_at screen x y ->
  screen_columns screen = Some (PyLong columns) ->
  screen_lines screen = Some (PyLong lines) ->
  screen_scrolled_by screen = Some (PyLong scrolled_by) ->
  fits_long x -> fits_long y -> fits_long columns -> fits_long lines ->
  fits_long scrolled_by ->
  offset_no_overflow columns 0 scrolled_by x y ->
  range_no_overflow columns lines 0 scrolled_by ->
  get_cursor_text_position [PyLong k] st
  = (Some (PyLong ((0 - scrolled_by + y) * columns + x)),
     set_error_indicator (Some e) st)
  /\ get_visible_character_range [PyLong k] st
     = (Some (PyTuple [PyLong (Z.max 0 ((0 - scrolled_by) * columns));
                       PyLong (lines * columns)]),
        set_error_indicator (Some e) st).
Proof.
  intros Hs Hu Hc Hcol Hl Hsb Fx Fy Fc Fl Fs Ho Hr. split.
  - now apply (get_cursor_text_position_unreadable_history st k screen Hs e).
  - now apply (get_visible_character_range_unreadable_history st k screen Hs e).
Qed.

(** X12 on the terminal of the scenario without its history buffer. *)
Lemma unreadable_history_counts_as_empty_witness :
  get_cursor_text_position [PyLong 1] (Scenario.state_of Cases.no_history)
  = (Some (PyLong ((0 - 0 + 2) * 80 + 5)),
     set_error_indicator (Some (mkPyErr PyExc_AttributeError "historybuf"))
       (Scenario.state_of Cases.no_history)).
Proof.
  refine (proj1 (unreadable_history_counts_as_empty
                   (Scenario.state_of Cases.no_history) 1 Cases.no_history
                   (mkPyErr PyExc_AttributeError "historybuf") 80 24 0 5 2
                   _ _ _ _ _ _ _ _ _ _ _ _ _));
    try reflexivity; try fits.
  - exists {[ 1 := Scenario.window_of Cases.no_history ]},
           (Scenario.window_of Cases.no_history).
    repeat split; reflexivity.
  - left. split; reflexivity.
  - eexists. repeat split; reflexivity.
  - repeat split; fits.
  - repeat split; fits.
Defined.

(** ** Offsets and cells *)

Lemma get_cursor_text_position_reading
    (st : State) (k : Z) (screen : Screen)
    (columns history_lines scrolled_by x y : Z) :
  cursor_reading st k screen columns history_lines scrolled_by x y ->
  get_cursor_text_position [PyLong k] st
  = (Some (PyLong ((history_lines - scrolled_by + y) * columns + x)), st).
Proof.
  intros ((m & w & Hr & Hk & Hscr) & Hc & Hrep & Fx & Fy & Fc & Fh & Fs & Ho).
  eapply get_cursor_text_position_reported; eauto.
Qed.

(** X13. Offsets follow the cells in row-major order.  For two cursor
    positions on screens of one geometry, each with its column inside the
    row ([0 <= x < columns]), the offset of the first is smaller than the
    offset of the second exactly when its row is above, or the rows are
    the same and its column is further left; so different cells never
    share an offset. *)
Theorem cursor_offset_row_major
    (st1 st2 : State) (k1 k2 : Z) (screen1 screen2 : Screen)
    (columns history_lines scrolled_by x1 y1 x2 y2 : Z) :
  cursor_reading st1 k1 screen1 columns history_lines scrolled_by x1 y1 ->
  cursor_reading st2 k2 screen2 columns history_lines scrolled_by x2 y2 ->
  0 <= x1 < columns -> 0 <= x2 < columns ->
  exists o1 o2 : Z,
    get_cursor_text_position [PyLong k1] st1 = (Some (PyLong o1), st1) /\
    get_cursor_text_position [PyLong k2] st2 = (Some (PyLong o2), st2) /\
    (o1 < o2 <-> y1 < y2 \/ (y1 = y2 /\ x1 < x2)) /\
    (o1 = o2 <-> x1 = x2 /\ y1 = y2).
Proof.
  intros R1 R2 B1 B2.
  exists ((history_lines - scrolled_by + y1) * columns + x1),
         ((history_lines - scrolled_by + y2) * columns + x2).
  split; [now apply (get_cursor_text_position_reading st1 k1 screen1)|].
  split; [now apply (get_cursor_text_position_reading st2 k2 screen2)|].
  destruct (Z.lt_trichotomy y1 y2) as [L|[E|G]].
  - assert ((history_lines - scrolled_by + y1 + 1) * columns
            <= (history_lines - scrolled_by + y2) * columns) by nia.
    split; split; intros; lia.
  - subst y2. split; split; intros; lia.
  - assert ((history_lines - scrolled_by + y2 + 1) * columns
            <= (history_lines - scrolled_by + y1) * columns) by nia.
    split; split; intros; lia.
Qed.

(** X13 on the scenario's cursor and the cell right of it. *)
Lemma cursor_offset_row_major_witness :
  exists o1 o2 : Z,
    get_cursor_text_position [PyLong 1] Scenario.state80
    = (Some (PyLong o1), Scenario.state80) /\
    get_cursor_text_position [PyLong 1] (Scenario.state_of Cases.screen80_right)
    = (Some (PyLong o2), Scenario.state_of Cases.screen80_right) /\
    (o1 < o2 <-> 2 < 2 \/ (2 = 2 /\ 5 < 6)) /\
    (o1 = o2 <-> 5 = 6 /\ 2 = 2).
Proof.
  apply (cursor_offset_row_major
           Scenario.state80 (Scenario.state_of Cases.screen80_right) 1 1
           Scenario.screen80 Cases.screen80_right 80 100 0 5 2 6 2);
    try lia.
  - split; [|split; [|split]].
    + exists {[ 1 := Scenario.window_of Scenario.screen80 ]},
             (Scenario.window_of Scenario.screen80).
      repeat split; reflexivity.
    + eexists. repeat split; reflexivity.
    + repeat split. eexists. split; reflexivity.
    + repeat split; fits.
  - split; [|split; [|split]].
    + exists {[ 1 := Scenario.window_of Cases.screen80_right ]},
             (Scenario.window_of Cases.screen80_right).
      repeat split; reflexivity.
    + eexists. repeat split; reflexivity.
    + repeat split. eexists. split; reflexivity.
    + repeat split; fits.
Defined.

(** X14. The cursor lies in the visible range.  For a valid geometry
    with the scroll offset inside the history
    ([0 <= scrolled_by <= history_lines]) and the cursor inside the grid,
    the offset [get_cursor_text_position] returns is the start of the
    range [get_visible_character_range] returns plus [y * columns + x],
    hence inside that range. *)
Theorem cursor_offset_in_visible_range
    (st : State) (k : Z) (screen : Screen)
    (columns lines history_lines scrolled_by x y : Z) :
  cursor_reading st k screen columns history_lines scrolled_by x y ->
  screen_lines screen = Some (PyLong lines) ->
  fits_long (lines * columns) ->
  0 < columns -> 0 <= x < columns -> 0 <= y < lines ->
  0 <= scrolled_by <= history_lines ->
  exists start length offset : Z,
    get_visible_character_range [PyLong k] st
    = (Some (PyTuple [PyLong start; PyLong length]), st) /\
    get_cursor_text_position [PyLong k] st = (Some (PyLong offset), st) /\
    offset = start + (y * columns + x) /\
    start <= offset < start + length.
Proof.
  intros R Hl Fl Hc Hx Hy Hs.
  pose proof (get_cursor_text_position_reading _ _ _ _ _ _ _ _ R) as Ho.
  destruct R as ((m & w & Hr & Hk & Hscr) & Hcur & Hrep & Fx & Fy & Fc & Fh
                 & Fs & (O1 & O2 & O3 & O4)).
  exists (Z.max 0 ((history_lines - scrolled_by) * columns)),
         (lines * columns),
         ((history_lines - scrolled_by + y) * columns + x).
  assert (P : 0 <= (history_lines - scrolled_by) * columns) by nia.
  assert (Q : (history_lines - scrolled_by) * columns
              <= (history_lines - scrolled_by + y) * columns) by nia.
  assert (Fl' : fits_long lines).
  { unfold fits_long, LONG_MIN, LONG_MAX in *. nia. }
  split.
  - eapply get_visible_character_range_reported; eauto.
    unfold range_no_overflow. split; [exact O1|]. split; [|exact Fl].
    unfold fits_long, LONG_MIN, LONG_MAX in *. lia.
  - split; [exact Ho|]. rewrite Z.max_r by exact P. split; [ring|]. nia.
Qed.

(** X14 on the terminal of the scenario. *)
Lemma cursor_offset_in_visible_range_witness :
  exists start length offset : Z,
    get_visible_character_range [PyLong 1] Scenario.state80
    = (Some (PyTuple [PyLong start; PyLong length]), Scenario.state80) /\
    get_cursor_text_position [PyLong 1] Scenario.state80
    = (Some (PyLong offset), Scenario.state80) /\
    offset = start + (2 * 80 + 5) /\
    start <= offset < start + length.
Proof.
  apply (cursor_offset_in_visible_range Scenario.state80 1 Scenario.screen80
           80 24 100 0 5 2); try reflexivity; try lia; try fits.
  split; [|split; [|split]].
  - exists {[ 1 := Scenario.window_of Scenario.screen80 ]},
           (Scenario.window_of Scenario.screen80).
    repeat split; reflexivity.
  - eexists. repeat split; reflexivity.
  - repeat split. eexists. split; reflexivity.
  - repeat split; fits.
Defined.

(** ** The identifier in the lookup error *)

(** X15. The lookup error names the identifier only when it is an integer
    a [long] holds.  For an identifier for which [window_id_map.get]
    finds nothing and that is such an integer [n], the message is "Window
    with ID n not found"; for any other one (a larger integer, a string, a
    tuple whose unpacked call finds nothing) the message reads "Window
    with ID -1 not found". *)
Theorem lookup_error_names_identifier
    (st : State) (m : gmap Z Window) (wid : PyObj) :
  registry st = Some m -> dict_get m wid = None ->
  (forall n : Z,
      wid = PyLong n -> fits_long n ->
      get_cursor_text_position [wid] st
      = (None,
         set_error_indicator
           (Some (mkPyErr PyExc_ValueError
                    ("Window with ID " ++ format_ld n ++ " not found"))) st))
  /\ ((forall n : Z, wid = PyLong n -> ~ fits_long n) ->
      get_cursor_text_position [wid] st
      = (None,
         set_error_indicator
           (Some (mkPyErr PyExc_ValueError "Window with ID -1 not found"))
           st)).
Proof.
  intros Hr Hk.
  pose proof (get_window_from_id_unknown st m wid Hr Hk) as Hw.
  split.
  - intros n -> Fn. rewrite (PyLong_AsLong_fits n st Fn) in Hw. simpl fst in Hw.
    exact (proj1 (proj2 (lookup_failure_propagates _ "" _ _ Hw))).
  - intros Hn.
    assert (Hv : fst (PyLong_AsLong wid st) = -1).
    { destruct wid as [|z|s|items]; try reflexivity. simpl.
      destruct (fits_longb z) eqn:Ez; [|reflexivity].
      exfalso. apply (Hn z eq_refl).
      unfold fits_longb in Ez. apply andb_prop in Ez as [A B].
      apply Z.leb_le in A. apply Z.leb_le in B. split; assumption. }
    rewrite Hv in Hw.
    exact (proj1 (proj2 (lookup_failure_propagates _ "" _ _ Hw))).
Qed.

(** X15 for the identifier 2^70 and for a string. *)
Lemma lookup_error_names_identifier_witness :
  get_cursor_text_position [PyLong (2 ^ 70)] Scenario.state80
  = (None,
     set_error_indicator
       (Some (mkPyErr PyExc_ValueError "Window with ID -1 not found"))
       Scenario.state80)
  /\ get_cursor_text_position [PyUnicode "one"] Scenario.state80
     = (None,
        set_error_indicator
          (Some (mkPyErr PyExc_ValueError "Window with ID -1 not found"))
          Scenario.state80).
Proof.
  split.
  - refine (proj2 (lookup_error_names_identifier Scenario.state80
                     {[ 1 := Scenario.window_of Scenario.screen80 ]}
                     (PyLong (2 ^ 70)) _ _) _); try reflexivity.
    intros n H. injection H as <-. fits.
  - refine (proj2 (lookup_error_names_identifier Scenario.state80
                     {[ 1 := Scenario.window_of Scenario.screen80 ]}
                     (PyUnicode "one") _ _) _); try reflexivity.
    intros n H. discriminate H.
Defined.

(** ** More on inserting text *)

Section Insert.

Context (st : State) (m : gmap Z Window) (k : Z) (w : Window).
Hypothesis Hregistry : registry st = Some m.
Hypothesis Hwindow : m !! k = Some w.

Lemma insert_text_at_cursor_accepted (text : string) :
  cstring text = true -> window_write_error w = None ->
  insert_text_at_cursor [PyLong k; PyUnicode text] st
  = (Some Py_None, with_window k (deliver (process_voice_command text) w) st).
Proof.
  intros Hc Hok. unfold insert_text_at_cursor.
  assert (Hparse : PyArg_ParseTuple_Os [PyLong k; PyUnicode text] st
                   = (Some (PyLong k, text), st)).
  { simpl. now rewrite Hc. }
  run_with Hparse.
  run_with (get_window_from_id_found st m k w Hregistry Hwindow).
  unfold write_to_child. rewrite Hok.
  unfold bind at 1. unfold bind at 1.
  now rewrite (update_window_found st m k w Hregistry Hwindow).
Qed.

Lemma child_input_other (w' : Window) (k' : Z) :
  k' <> k -> child_input (with_window k w' st) k' = child_input st k'.
Proof.
  intros Hne. unfold child_input.
  rewrite (registry_with_window st m k Hregistry w'), Hregistry.
  now rewrite lookup_insert_ne by congruence.
Qed.

End Insert.

(** X16. Dictating under an identifier for which [window_id_map.get] finds
    nothing writes nothing: [insert_text_at_cursor] fails with the
    [ValueError] of the lookup, and the host state, with the input of
    every child, is what it was. *)
Theorem insert_text_unknown_window
    (st : State) (m : gmap Z Window) (wid : PyObj) (text : string) :
  registry st = Some m -> dict_get m wid = None -> cstring text = true ->
  exists msg : string,
    insert_text_at_cursor [wid; PyUnicode text] st
    = (None,
       set_error_indicator (Some (mkPyErr PyExc_ValueError msg)) st)
    /\ forall key : Z,
         child_input
           (snd (insert_text_at_cursor [wid; PyUnicode text] st)) key
         = child_input st key.
Proof.
  intros Hr Hk Hc.
  pose proof (get_window_from_id_unknown st m wid Hr Hk) as Hw.
  pose proof (proj2 (proj2 (proj2 (proj2
                (lookup_failure_propagates wid text st _ Hw)))) Hc) as H.
  eexists. split; [exact H|].
  intros key. rewrite H. reflexivity.
Qed.

(** X16 for the identifier 7 in the terminal of the scenario. *)
Lemma insert_text_unknown_window_witness :
  exists msg : string,
    insert_text_at_cursor [PyLong 7; PyUnicode "ls"] Scenario.state80
    = (None,
       set_error_indicator (Some (mkPyErr PyExc_ValueError msg))
         Scenario.state80)
    /\ forall key : Z,
         child_input
           (snd (insert_text_at_cursor [PyLong 7; PyUnicode "ls"]
                   Scenario.state80)) key
         = child_input Scenario.state80 key.
Proof.
  apply (insert_text_unknown_window Scenario.state80
           {[ 1 := Scenario.window_of Scenario.screen80 ]});
    reflexivity.
Defined.

(** X17. An accepted insertion touches one window only: afterwards the
    registry holds the same keys, the window written to has its screen
    and its write behaviour as before, every other window is the same
    object with the same child input, and the error indicator is
    untouched. *)
Theorem insert_text_frame
    (st : State) (m : gmap Z Window) (k : Z) (w : Window) (text : string) :
  registry st = Some m -> m !! k = Some w ->
  cstring text = true -> window_write_error w = None ->
  let st' := snd (insert_text_at_cursor [PyLong k; PyUnicode text] st) in
  exists (m' : gmap Z Window) (w' : Window),
    registry st' = Some m' /\
    m' !! k = Some w' /\
    window_screen w' = window_screen w /\
    window_write_error w' = window_write_error w /\
    (forall k' : Z, k' <> k -> m' !! k' = m !! k') /\
    dom m' = dom m /\
    error_indicator st' = error_indicator st.
Proof.
  intros Hr Hk Hc Hok st'. subst st'.
  rewrite (insert_text_at_cursor_accepted st m k w Hr Hk text Hc Hok).
  simpl snd.
  exists (<[k := deliver (process_voice_command text) w]> m),
         (deliver (process_voice_command text) w).
  split; [apply (registry_with_window st m k Hr)|].
  split; [apply lookup_insert_eq|].
  split; [reflexivity|]. split; [reflexivity|].
  split; [intros k' Hne; apply lookup_insert_ne; congruence|].
  split; [|reflexivity].
  rewrite dom_insert_L. pose proof (elem_of_dom_2 m k w Hk) as Hd.
  apply subseteq_union_1_L, singleton_subseteq_l. exact Hd.
Qed.

(** X17 with two windows: dictating into window 1 leaves window 2 as it
    was. *)
Lemma insert_text_frame_witness :
  exists (m' : gmap Z Window) (w' : Window),
    registry (snd (insert_text_at_cursor [PyLong 1; PyUnicode "tab"]
                     Cases.state_two)) = Some m' /\
    m' !! 1 = Some w' /\
    window_screen w' = window_screen (Scenario.window_of Scenario.screen80) /\
    window_write_error w'
    = window_write_error (Scenario.window_of Scenario.screen80) /\
    (forall k' : Z, k' <> 1 -> m' !! k' = Cases.two_windows !! k') /\
    dom m' = dom Cases.two_windows /\
    error_indicator (snd (insert_text_at_cursor [PyLong 1; PyUnicode "tab"]
                            Cases.state_two))
    = error_indicator Cases.state_two.
Proof.
  apply (insert_text_frame Cases.state_two Cases.two_windows 1
           (Scenario.window_of Scenario.screen80) "tab"); reflexivity.
Defined.

(** X18. Insertions compose in order: after two accepted calls for the
    same window, with texts [t1] and then [t2], its child has received
    what it had, then [process_voice_command t1], then
    [process_voice_command t2]. *)
Theorem insert_text_twice
    (st : State) (m : gmap Z Window) (k : Z) (w : Window) (t1 t2 : string) :
  registry st = Some m -> m !! k = Some w ->
  cstring t1 = true -> cstring t2 = true -> window_write_error w = None ->
  let st1 := snd (insert_text_at_cursor [PyLong k; PyUnicode t1] st) in
  let r2 := insert_text_at_cursor [PyLong k; PyUnicode t2] st1 in
  fst r2 = Some Py_None /\
  child_input (snd r2) k
  = Some (window_child_input w
          ++ process_voice_command t1 ++ process_voice_command t2).
Proof.
  intros Hr Hk H1 H2 Hok st1 r2. subst r2 st1.
  rewrite (insert_text_at_cursor_accepted st m k w Hr Hk t1 H1 Hok).
  simpl snd.
  set (w1 := deliver (process_voice_command t1) w).
  pose proof (registry_with_window st m k Hr w1) as Hr1.
  assert (Hk1 : <[k := w1]> m !! k = Some w1) by apply lookup_insert_eq.
  rewrite (insert_text_at_cursor_accepted _ _ k w1 Hr1 Hk1 t2 H2 Hok).
  split; [reflexivity|]. simpl snd.
  rewrite (child_input_with_window _ _ k Hr1). subst w1. simpl.
  now rewrite append_assoc.
Qed.

(** X18 for "ls" followed by "enter" in the terminal of the scenario. *)
Lemma insert_text_twice_witness :
  child_input
    (snd (insert_text_at_cursor [PyLong 1; PyUnicode "enter"]
            (snd (insert_text_at_cursor [PyLong 1; PyUnicode "ls"]
                    Scenario.state80)))) 1
  = Some ("" ++ process_voice_command "ls" ++ process_voice_command "enter").
Proof.
  refine (proj2 (insert_text_twice Scenario.state80
                   {[ 1 := Scenario.window_of Scenario.screen80 ]} 1
                   (Scenario.window_of Scenario.screen80) "ls" "enter"
                   _ _ _ _ _)); reflexivity.
Defined.

(** ** Posting notifications *)

(** X19. [post_accessibility_notification] never fails on a window
    identifier and a C string: it returns [None] and leaves the
    interpreter state alone, whatever the identifier is.  Compiled for
    macOS it posts the one NSAccessibility name of the table for each of
    the four kinds and nothing for any other kind; compiled elsewhere it
    posts nothing. *)
Theorem post_notification_table
    (APPLE : bool) (wid : PyObj) (kind : string)
    (st : State) (posted : list string) :
  cstring kind = true ->
  exists posted' : list string,
    post_accessibility_notification APPLE [wid; PyUnicode kind] st posted
    = (Some Py_None, st, posted') /\
    (APPLE = false -> posted' = posted) /\
    (APPLE = true ->
     forall name : string,
       In (kind, name) notification_names ->
       posted' = (posted ++ [name])%list) /\
    (APPLE = true ->
     (forall name : string, ~ In (kind, name) notification_names) ->
     posted' = posted).
Proof.
  intros Hc. unfold post_accessibility_notification.
  assert (Hparse : PyArg_ParseTuple_Os [wid; PyUnicode kind] st
                   = (Some (wid, kind), st)).
  { simpl. now rewrite Hc. }
  rewrite Hparse. eexists. split; [reflexivity|].
  split; [intros ->; reflexivity|]. split.
  - intros -> name Hin. simpl in Hin.
    repeat (destruct Hin as [Hin|Hin];
            [injection Hin as <- <-; reflexivity|]).
    destruct Hin.
  - intros -> Hnot.
    assert (Hne : forall lit name, In (lit, name) notification_names ->
                                   (strcmp kind lit =? 0) = false).
    { intros lit name Hin. apply strcmp_eqb_false; [exact Hc| |].
      - simpl in Hin.
        repeat (destruct Hin as [Hin|Hin];
                [injection Hin as <- <-; reflexivity|]).
        destruct Hin.
      - intros ->. exact (Hnot name Hin). }
    rewrite (Hne "value_changed" _ (or_introl eq_refl)).
    rewrite (Hne "selection_changed" _ (or_intror (or_introl eq_refl))).
    rewrite (Hne "focus_changed" _
               (or_intror (or_intror (or_introl eq_refl)))).
    rewrite (Hne "layout_changed" _
               (or_intror (or_intror (or_intror (or_introl eq_refl))))).
    reflexivity.
Qed.

(** X19 for a kind the table does not hold. *)
Lemma post_notification_table_witness :
  exists posted' : list string,
    post_accessibility_notification true [PyLong 7; PyUnicode "title_changed"]
      Scenario.state80 []
    = (Some Py_None, Scenario.state80, posted') /\
    (true = false -> posted' = []) /\
    (true = true ->
     forall name : string,
       In ("title_changed", name) notification_names ->
       posted' = ([] ++ [name])%list) /\
    (true = true ->
     (forall name : string, ~ In ("title_changed", name) notification_names) ->
     posted' = []).
Proof.
  apply (post_notification_table true (PyLong 7) "title_changed"
           Scenario.state80 []).
  reflexivity.
Defined.

(** ** Where the range and the offset can lie *)

(** X20. The visible range stays inside the buffer.  For non-negative
    columns, history and scroll offset, the range that
    [get_visible_character_range] returns starts at or after 0 and ends at
    or before [(history_lines + lines) * columns], the end of history plus
    grid, also when the scroll offset exceeds the history. *)
Theorem visible_range_inside_buffer
    (st : State) (m : gmap Z Window) (k : Z) (w : Window) (screen : Screen)
    (columns lines history_lines scrolled_by : Z) :
  registry st = Some m -> m !! k = Some w ->
  window_screen w = Some screen ->
  reports screen columns history_lines scrolled_by ->
  screen_lines screen = Some (PyLong lines) ->
  fits_long columns -> fits_long lines ->
  fits_long history_lines -> fits_long scrolled_by ->
  range_no_overflow columns lines history_lines scrolled_by ->
  0 <= columns -> 0 <= history_lines -> 0 <= scrolled_by ->
  exists start length : Z,
    get_visible_character_range [PyLong k] st
    = (Some (PyTuple [PyLong start; PyLong length]), st) /\
    0 <= start /\
    start + length <= (history_lines + lines) * columns.
Proof.
  intros Hr Hk Hscr Hrep Hl Fc Fl Fh Fs Ho Hc Hh Hs.
  exists (Z.max 0 ((history_lines - scrolled_by) * columns)),
         (lines * columns).
  split; [eapply get_visible_character_range_reported; eauto|].
  split; [lia|].
  destruct (Z.max_spec 0 ((history_lines - scrolled_by) * columns))
    as [[_ ->]|[_ ->]]; nia.
Qed.

(** X20 on the viewport scrolled past an empty history. *)
Lemma visible_range_inside_buffer_witness :
  exists start length : Z,
    get_visible_character_range [PyLong 1] Scenario.state_scrolled
    = (Some (PyTuple [PyLong start; PyLong length]), Scenario.state_scrolled)
    /\ 0 <= start /\ start + length <= (0 + 24) * 80.
Proof.
  apply (visible_range_inside_buffer Scenario.state_scrolled
           {[ 1 := Scenario.window_of Scenario.scrolled ]} 1
           (Scenario.window_of Scenario.scrolled) Scenario.scrolled
           80 24 0 1); try reflexivity; try lia; try fits.
  - repeat split. eexists. split; reflexivity.
  - repeat split; fits.
Defined.

(** X21. The offset of a cursor inside its row is negative exactly when
    the scroll offset exceeds the history by more than the cursor's row:
    for [0 < columns] and [0 <= x < columns], the value
    [get_cursor_text_position] returns is below 0 if and only if
    [history_lines + y < scrolled_by]. *)
Theorem cursor_offset_negative_iff
    (st : State) (k : Z) (screen : Screen)
    (columns history_lines scrolled_by x y : Z) :
  cursor_reading st k screen columns history_lines scrolled_by x y ->
  0 < columns -> 0 <= x < columns ->
  exists offset : Z,
    get_cursor_text_position [PyLong k] st = (Some (PyLong offset), st) /\
    (offset < 0 <-> history_lines + y < scrolled_by).
Proof.
  intros R Hc Hx.
  exists ((history_lines - scrolled_by + y) * columns + x).
  split; [now apply (get_cursor_text_position_reading st k screen)|].
  split; intros H.
  - destruct (Z.lt_ge_cases (history_lines + y) scrolled_by) as [L|G];
      [exact L|]. nia.
  - assert ((history_lines - scrolled_by + y) * columns <= - columns) by nia.
    lia.
Qed.

(** X21 on the viewport scrolled past an empty history. *)
Lemma cursor_offset_negative_iff_witness :
  exists offset : Z,
    get_cursor_text_position [PyLong 1] Scenario.state_scrolled
    = (Some (PyLong offset), Scenario.state_scrolled) /\
    (offset < 0 <-> 0 + 0 < 1).
Proof.
  apply (cursor_offset_negative_iff Scenario.state_scrolled 1
           Scenario.scrolled 80 0 1 0 0); try lia.
  split; [|split; [|split]].
  - exists {[ 1 := Scenario.window_of Scenario.scrolled ]},
           (Scenario.window_of Scenario.scrolled).
    repeat split; reflexivity.
  - eexists. repeat split; reflexivity.
  - repeat split. eexists. split; reflexivity.
  - repeat split; fits.
Defined.
